(** * company_information_summary: the information-gathering pipeline

    A shallow embedding of [src/summarizer.py] (class [CompanySummarizer])
    and of the entry check of [src/main.py].

    - Python [str] values are lists of Unicode code points.
    - Values read from JSON or from result dicts are dynamically typed
      ([pyval]): calling [.lower()] on a non-string raises [AttributeError].
    - Network and model calls are answered by a [world] oracle; every call
      is appended to a log, so "no request was issued" is a statement
      about that log.
    - Exceptions are explicit ([outcome]); [try]/[except] is [try_catch].
    - [print] calls are not modelled. *)

From Stdlib Require Import Strings.String Strings.Ascii Strings.Byte.
From Stdlib Require Import List NArith ZArith Bool Lia.
From Stdlib Require Import DecimalString.
Import ListNotations.

Set Implicit Arguments.
#[local] Set Warnings "-register-all".

(* ================================================================= *)
(** ** Python strings *)

Definition pystr := list N.

(** Source literals are written as UTF-8 text and decoded to code points. *)
Fixpoint utf8_decode (bs : list N) : pystr :=
  match bs with
  | [] => []
  | b0 :: r0 =>
    if (b0 <? 128)%N then b0 :: utf8_decode r0
    else if (b0 <? 224)%N then
      match r0 with
      | b1 :: r1 => ((b0 - 192) * 64 + (b1 - 128))%N :: utf8_decode r1
      | _ => []
      end
    else if (b0 <? 240)%N then
      match r0 with
      | b1 :: b2 :: r2 =>
        ((b0 - 224) * 4096 + (b1 - 128) * 64 + (b2 - 128))%N :: utf8_decode r2
      | _ => []
      end
    else
      match r0 with
      | b1 :: b2 :: b3 :: r3 =>
        ((b0 - 240) * 262144 + (b1 - 128) * 4096 + (b2 - 128) * 64 + (b3 - 128))%N
          :: utf8_decode r3
      | _ => []
      end
  end.

Definition u (s : string) : pystr :=
  utf8_decode (map Byte.to_N (list_byte_of_string s)).

(** [str.encode("utf-8")], used by [quote_plus]. *)
Definition utf8_encode_char (c : N) : list N :=
  if (c <? 128)%N then [c]
  else if (c <? 2048)%N then [192 + c / 64; 128 + c mod 64]%N
  else if (c <? 65536)%N then
    [224 + c / 4096; 128 + (c / 64) mod 64; 128 + c mod 64]%N
  else
    [240 + c / 262144; 128 + (c / 4096) mod 64; 128 + (c / 64) mod 64;
     128 + c mod 64]%N.

Definition str_eqb (a b : pystr) : bool :=
  if list_eq_dec N.eq_dec a b then true else false.

(** [bool(s)] for a string or a list. *)
Definition nonempty {A} (s : list A) : bool :=
  match s with [] => false | _ :: _ => true end.

(** [s.startswith(prefix)]. *)
Fixpoint startswith (s prefix : pystr) : bool :=
  match prefix, s with
  | [], _ => true
  | p :: prefix', c :: s' => (p =? c)%N && startswith s' prefix'
  | _ :: _, [] => false
  end.

(** [needle in hay] for strings. *)
Fixpoint str_in (needle hay : pystr) : bool :=
  startswith hay needle
  || match hay with
     | [] => false
     | _ :: hay' => str_in needle hay'
     end.

(** The code points for which [str.isspace()] holds; [str.strip()] removes
    them from both ends. *)
Definition isspace (c : N) : bool :=
  ((9 <=? c) && (c <=? 13) || (28 <=? c) && (c <=? 32)
   || (c =? 133) || (c =? 160) || (c =? 5760)
   || (8192 <=? c) && (c <=? 8202)
   || (c =? 8232) || (c =? 8233) || (c =? 8239) || (c =? 8287)
   || (c =? 12288))%N.

Fixpoint lstrip (s : pystr) : pystr :=
  match s with
  | [] => []
  | c :: s' => if isspace c then lstrip s' else s
  end.

Definition strip (s : pystr) : pystr := rev (lstrip (rev (lstrip s))).

(** [sep.join(parts)]. *)
Fixpoint join (sep : pystr) (parts : list pystr) : pystr :=
  match parts with
  | [] => []
  | [p] => p
  | p :: parts' => p ++ sep ++ join sep parts'
  end.

(** [s.split(sep)] for a one-character separator: never the empty list. *)
Fixpoint split_acc (sep : N) (cur : pystr) (s : pystr) : list pystr :=
  match s with
  | [] => [rev cur]
  | c :: s' =>
    if (c =? sep)%N then rev cur :: split_acc sep [] s'
    else split_acc sep (c :: cur) s'
  end.

Definition split (sep : N) (s : pystr) : list pystr := split_acc sep [] s.

(** [str(i)] for the non-negative counters of [enumerate(..., 1)]. *)
Definition str_of_nat (n : nat) : pystr :=
  u (NilEmpty.string_of_uint (Nat.to_uint n)).

(** [xs[:n]] with Python's treatment of a negative bound. *)
Definition slice_to {A} (n : Z) (xs : list A) : list A :=
  if (0 <=? n)%Z then firstn (Z.to_nat n) xs
  else firstn (length xs - Z.to_nat (- n)) xs.

Definition nl : pystr := [10%N].

(** A stand-in for [str.lower()] that is exact on ASCII letters and on text
    without case (Hangul, digits, punctuation); it is used only to run the
    program on concrete inputs.  The program itself is parameterised by
    [lower]. *)
Definition lower_ascii (s : pystr) : pystr :=
  map (fun c => if ((65 <=? c) && (c <=? 90))%N then (c + 32)%N else c) s.

(* ================================================================= *)
(** ** Dynamically typed values, exceptions *)

(** A value stored in a result dict.  A JSON value that is not a string
    (null, number, boolean, array, object) is given by what the program
    observes of it: the name of its type, [bool(v)] and [str(v)]. *)
Inductive pyval :=
| VStr (s : pystr)
| VOther (type_name : pystr) (truthy_value : bool) (shown : pystr).

Definition VNone : pyval := VOther (u "NoneType") false (u "None").

(** [bool(v)]. *)
Definition truthy (v : pyval) : bool :=
  match v with
  | VStr s => nonempty s
  | VOther _ b _ => b
  end.

(** [f"{v}"]. *)
Definition fmt (v : pyval) : pystr :=
  match v with
  | VStr s => s
  | VOther _ _ shown => shown
  end.

(** An exception, with its [str(e)]. *)
Inductive exn :=
| AttributeError (text : pystr)
| Failure (text : pystr).

Definition str_exn (e : exn) : pystr :=
  match e with
  | AttributeError text => text
  | Failure text => text
  end.

Inductive outcome (A : Type) :=
| Returns (a : A)
| Raises (e : exn).
Arguments Returns {A} a.
Arguments Raises {A} e.

Definition obind {A B} (o : outcome A) (k : A -> outcome B) : outcome B :=
  match o with
  | Returns a => k a
  | Raises e => Raises e
  end.

Notation "'let*' x ':=' o 'in' k" := (obind o (fun x => k))
  (at level 61, x name, o at next level, right associativity).

(** The dict built for one search hit; ["date"] is present only for news
    hits. *)
Record result := {
  title : pyval;
  snippet : pyval;
  link : pyval;
  date : option pyval
}.

(** [r.get("date")] and [r.get("date", default)]. *)
Definition get_date (r : result) : pyval :=
  match date r with Some v => v | None => VNone end.

Definition get_date_or (default : pystr) (r : result) : pyval :=
  match date r with Some v => v | None => VStr default end.

(** SearchResult of the data model: title and snippet are strings. *)
Definition textual (r : result) : Prop :=
  (exists t, title r = VStr t) /\ (exists s, snippet r = VStr s).

(* ================================================================= *)
(** ** Parsed HTML (what the program reads of a BeautifulSoup tree) *)

(** Of a tag's attributes the program reads only [class] (through the
    selectors; BeautifulSoup keeps it as a list of tokens) and [href]. *)
Inductive node :=
| Text (s : pystr)
| Tag (name : pystr) (class_ : option (list pystr)) (href : option pystr)
      (children : list node).

Fixpoint descendants (n : node) : list node :=
  match n with
  | Text _ => []
  | Tag _ _ _ cs => flat_map (fun c => c :: descendants c) cs
  end.

(** [tag.find_all(name, <class filter>)]: matching descendants in document
    order. *)
Definition find_all (name : pystr) (class_filter : option (list pystr) -> bool)
           (n : node) : list node :=
  filter (fun d => match d with
                   | Tag nm cls _ _ => str_eqb nm name && class_filter cls
                   | Text _ => false
                   end) (descendants n).

(** [tag.find(...)]: the first match or [None]. *)
Definition find (name : pystr) (class_filter : option (list pystr) -> bool)
           (n : node) : option node :=
  hd_error (find_all name class_filter n).

(** [class_="c"]: some token is [c], or the whole attribute is. *)
Definition class_is (c : pystr) (cls : option (list pystr)) : bool :=
  match cls with
  | None => false
  | Some toks => existsb (str_eqb c) toks || str_eqb (join (u " ") toks) c
  end.

Definition any_class (cls : option (list pystr)) : bool := true.

(** [{"class": f}] for a function [f]: [f] is tried on every token and on
    the whole attribute. *)
Definition class_where (f : pystr -> bool) (cls : option (list pystr)) : bool :=
  match cls with
  | None => false
  | Some toks => existsb f toks || f (join (u " ") toks)
  end.

Definition strings (n : node) : list pystr :=
  flat_map (fun d => match d with Text s => [s] | Tag _ _ _ _ => [] end)
           (descendants n).

(** [tag.get_text(strip=True)] and [tag.get_text(separator=sep, strip=True)]. *)
Definition get_text_sep (sep : pystr) (n : node) : pystr :=
  join sep (filter nonempty (map strip (strings n))).

Definition get_text (n : node) : pystr := get_text_sep [] n.

(** [tag.get("href", "")]. *)
Definition get_href (n : node) : pystr :=
  match n with
  | Tag _ _ (Some h) _ => h
  | _ => []
  end.

(** [for tag in soup(names): tag.decompose()]. *)
Fixpoint decompose_all (names : list pystr) (n : node) : node :=
  match n with
  | Text s => Text s
  | Tag nm cls h cs =>
    Tag nm cls h
        (flat_map (fun c =>
                     match c with
                     | Tag cn _ _ _ =>
                       if existsb (str_eqb cn) names then []
                       else [decompose_all names c]
                     | Text _ => [c]
                     end) cs)
  end.

(* ================================================================= *)
(** ** The outside world *)

(** What [response.json()] of the search API gives, as far as the program
    looks.  An element of a listing is a JSON object ([item.get] works) or
    anything else ([item.get] raises [AttributeError]).  A listing is a
    JSON array, or a value on which slicing or iterating raises.  The body
    is a JSON object with or without the keys ["organic_results"] and
    ["news_results"], or something on which [response.json()], the [in]
    test or the indexing raises. *)
Inductive serp_item :=
| ItemDict (fields : list (pystr * pyval))
| ItemOther.

Inductive serp_listing :=
| NotSliceable
| Listing (items : list serp_item).

Inductive serp_json :=
| JsonError
| JsonData (organic_results news_results : option serp_listing).

Record response := {
  status_code : Z;
  json : serp_json;
  soup : node
}.

Inductive request :=
| Get (url : pystr) (params headers : list (pystr * pystr)) (timeout : Z)
| Head (url : pystr) (headers : list (pystr * pystr)) (timeout : Z)
| ChatCreate (model system user temperature : pystr) (max_tokens : Z).

Definition log := list request.

(** Every answer may depend on all earlier requests.  [requests_head]
    gives the [url] of the final response; [chat_create] gives
    [choices[0].message.content], or raises with the error text. *)
Record world := {
  requests_get : log -> request -> outcome response;
  requests_head : log -> request -> outcome pystr;
  chat_create : log -> request -> outcome pystr;
  openai_new : pystr -> bool
}.

(** Computations that issue requests and may raise. *)
Definition M (A : Type) := log -> outcome A * log.

Definition ret {A} (a : A) : M A := fun l => (Returns a, l).

Definition raise {A} (e : exn) : M A := fun l => (Raises e, l).

Definition bind {A B} (m : M A) (k : A -> M B) : M B :=
  fun l =>
    match m l with
    | (Returns a, l') => k a l'
    | (Raises e, l') => (Raises e, l')
    end.

Definition lift {A} (o : outcome A) : M A := fun l => (o, l).

(** [try: m  except Exception as e: h e]. *)
Definition try_catch {A} (m : M A) (h : exn -> M A) : M A :=
  fun l =>
    match m l with
    | (Returns a, l') => (Returns a, l')
    | (Raises e, l') => h e l'
    end.

Notation "x <- m ;; k" := (bind m (fun x => k))
  (at level 61, m at next level, right associativity).

Definition http_get (w : world) (req : request) : M response :=
  fun l => (requests_get w l req, l ++ [req]).

Definition http_head (w : world) (req : request) : M pystr :=
  fun l => (requests_head w l req, l ++ [req]).

Definition chat_completions_create (w : world) (req : request) : M pystr :=
  fun l => (chat_create w l req, l ++ [req]).

(** [response.raise_for_status()]. *)
Definition raise_for_status (r : response) : M unit :=
  if ((400 <=? status_code r) && (status_code r <? 600))%Z
  then raise (Failure (u "HTTPError"))
  else ret tt.

(** [urllib.parse.quote_plus]: the UTF-8 bytes of the string, unreserved
    ones kept, space as [+], the others as [%XX]; encoding raises on a
    surrogate code point. *)
Definition hex_digit (d : N) : N :=
  if (d <? 10)%N then (48 + d)%N else (55 + d)%N.

Definition always_safe (b : N) : bool :=
  ((65 <=? b) && (b <=? 90) || (97 <=? b) && (b <=? 122)
   || (48 <=? b) && (b <=? 57)
   || (b =? 95) || (b =? 46) || (b =? 45) || (b =? 126))%N.

Definition quote_byte (b : N) : pystr :=
  if always_safe b then [b]
  else if (b =? 32)%N then [43%N]
  else [37%N; hex_digit (b / 16); hex_digit (b mod 16)].

Definition is_surrogate (c : N) : bool := ((55296 <=? c) && (c <=? 57343))%N.

Definition quote_plus (s : pystr) : outcome pystr :=
  if existsb is_surrogate s then Raises (Failure (u "UnicodeEncodeError"))
  else Returns (flat_map quote_byte (flat_map utf8_encode_char s)).

(** [d.get(key, default)] on a JSON object. *)
Fixpoint dict_get (fields : list (pystr * pyval)) (key : pystr)
         (default : pyval) : pyval :=
  match fields with
  | [] => default
  | (k, v) :: fields' =>
    if str_eqb k key then v else dict_get fields' key default
  end.

(** [a or b] on lists and on optional tags (a tag is always true). *)
Definition list_or {A} (a b : list A) : list A :=
  match a with [] => b | _ :: _ => a end.

Definition tag_or (a b : option node) : option node :=
  match a with Some _ => a | None => b end.

(** [bool(x)] for an optional string. *)
Definition opt_truthy (x : option pystr) : bool :=
  match x with Some s => nonempty s | None => false end.

Definition dq : pystr := [34%N].

(** The summarizer object after [__init__]: whether a model client exists,
    and the search API key. *)
Record summarizer := {
  client : bool;
  serpapi_key : option pystr
}.

Record environ := {
  OPENAI_API_KEY : option pystr;
  SERPAPI_KEY : option pystr
}.

(** The three-field result and its [to_dict]. *)
Record CompanySummaryResult := {
  overview : option pystr;
  talent_profile : option pystr;
  recent_vision : option pystr
}.

Definition to_dict (r : CompanySummaryResult) : list (pystr * option pystr) :=
  [ (u "overview", overview r);
    (u "talent_profile", talent_profile r);
    (u "recent_vision", recent_vision r) ].

(* ================================================================= *)
(** ** [CompanySummarizer] *)

Section Summarizer.

(** [str.lower()]; nothing is assumed of it. *)
Variable lower : pystr -> pystr.
Variable w : world.

(** [v.lower()]. *)
Definition py_lower (v : pyval) : outcome pystr :=
  match v with
  | VStr s => Returns (lower s)
  | VOther ty _ _ =>
    Raises (AttributeError
              (u "'" ++ ty ++ u "' object has no attribute 'lower'"))
  end.

(** *** [__init__] *)

Definition init (env : environ) : summarizer :=
  {| client :=
       match OPENAI_API_KEY env with
       | Some k => nonempty k && openai_new w k
       | None => false
       end;
     serpapi_key := SERPAPI_KEY env |}.

(** *** [_search_duckduckgo_html] *)

Definition ddg_headers : list (pystr * pystr) :=
  [ (u "User-Agent",
     u "Mozilla/5.0 (Windows NT 10.0; Win64; x64) AppleWebKit/537.36 (KHTML, like Gecko) Chrome/116.0.0.0 Safari/537.36");
    (u "Accept",
     u "text/html,application/xhtml+xml,application/xml;q=0.9,image/webp,*/*;q=0.8");
    (u "Accept-Language", u "ko-KR,ko;q=0.9,en-US;q=0.8,en;q=0.7");
    (u "Accept-Encoding", u "gzip, deflate, br");
    (u "Connection", u "keep-alive") ].

(** The three selector strategies, in the order they are tried. *)
Definition strategy_A (soup : node) : list node :=
  find_all (u "div") (class_is (u "result")) soup.

Definition strategy_B (soup : node) : list node :=
  find_all (u "div") (class_is (u "web-result")) soup.

Definition strategy_C (soup : node) : list node :=
  find_all (u "div")
           (class_where (fun x => nonempty x && str_in (u "result") (lower x)))
           soup.

Definition result_elements (soup : node) (max_results : Z) : list node :=
  list_or (slice_to max_results (strategy_A soup))
          (list_or (slice_to max_results (strategy_B soup))
                   (slice_to max_results (strategy_C soup))).

Definition title_elem (element : node) : option node :=
  tag_or (find (u "a") (class_is (u "result__a")) element)
  (tag_or (find (u "a") (class_is (u "result-link")) element)
  (tag_or (find (u "h2") (class_is (u "result__title")) element)
          (find (u "a") any_class element))).

Definition snippet_elem (element : node) : option node :=
  tag_or (find (u "a") (class_is (u "result__snippet")) element)
  (tag_or (find (u "div") (class_is (u "result__snippet")) element)
  (tag_or (find (u "span") (class_is (u "result__snippet")) element)
          (find (u "p") (class_is (u "result__snippet")) element))).

Definition date_elem (element : node) : option node :=
  tag_or (find (u "span") (class_is (u "result__date")) element)
         (find (u "time") any_class element).

(** The link of a hit: a redirect wrapper is resolved with a HEAD request
    (any failure keeps the wrapped link), another link that does not start
    with [http] gets the site prefix. *)
Definition resolve_link (link : pystr) : M pystr :=
  if startswith link (u "/l/?kh=") || startswith link (u "/l/?") then
    try_catch
      (let redirect_url := u "https://duckduckgo.com" ++ link in
       final_url <- http_head w (Head redirect_url ddg_headers 5) ;;
       if nonempty final_url then ret final_url else ret link)
      (fun _ => ret link)
  else if negb (startswith link (u "http")) then
    ret (u "https://duckduckgo.com" ++ link)
  else ret link.

(** The [for element in result_elements] loop, [results] being the list
    built so far. *)
Fixpoint extract_loop (max_results : Z) (is_news : bool)
         (elements : list node) (results : list result) : M (list result) :=
  match elements with
  | [] => ret results
  | element :: rest =>
    match title_elem element with
    | None => extract_loop max_results is_news rest results
    | Some te =>
      let title := get_text te in
      link <- resolve_link (get_href te) ;;
      let snippet :=
          match snippet_elem element with
          | Some se => get_text se
          | None => []
          end in
      if nonempty title then
        let result_dict :=
            {| title := VStr title;
               snippet := VStr snippet;
               link := VStr link;
               date := if is_news
                       then Some (VStr match date_elem element with
                                       | Some de => get_text de
                                       | None => []
                                       end)
                       else None |} in
        let results := results ++ [result_dict] in
        if (max_results <=? Z.of_nat (length results))%Z
        then ret results
        else extract_loop max_results is_news rest results
      else extract_loop max_results is_news rest results
    end
  end.

(** Everything after the page has been parsed. *)
Definition extract (soup : node) (max_results : Z) (is_news : bool)
  : M (list result) :=
  extract_loop max_results is_news (result_elements soup max_results) [].

(** The URL the source requests; the line that used [encoded_query] is
    commented out there. *)
Definition ddg_request_url (encoded_query : pystr) : pystr :=
  u "https://duckduckgo.com/html/?q=미래시스템".

(** The URL of the commented-out line,
    [f"https://duckduckgo.com/html/?q={encoded_query}"]. *)
Definition ddg_query_url (encoded_query : pystr) : pystr :=
  u "https://duckduckgo.com/html/?q=" ++ encoded_query.

(** No step of the loop raises, so when the handler runs [results] is
    still empty. *)
Definition _search_duckduckgo_html (query : pystr) (max_results : Z)
           (is_news : bool) : M (list result) :=
  try_catch
    (encoded_query <- lift (quote_plus query) ;;
     let url := ddg_request_url encoded_query in
     response <- http_get w (Get url [] ddg_headers 10) ;;
     _ <- raise_for_status response ;;
     extract (soup response) max_results is_news)
    (fun _ => ret []).

(** *** [_search_company_info] *)

Definition general_query (company_name : pystr) : pystr :=
  company_name ++ u " 회사 소개 인재상".

Definition news_query (company_name : pystr) : pystr :=
  company_name ++ u " 최근 뉴스 비전 전략".

(** [for item in items: results.append({...})]: an element that is not an
    object makes [item.get] raise; what was appended before stays. *)
Fixpoint append_items (with_date : bool) (items : list serp_item)
         (results : list result) : list result :=
  match items with
  | [] => results
  | ItemDict fields :: items' =>
    append_items with_date items'
      (results ++
       [ {| title := dict_get fields (u "title") (VStr []);
            snippet := dict_get fields (u "snippet") (VStr []);
            link := dict_get fields (u "link") (VStr []);
            date := if with_date
                    then Some (dict_get fields (u "date") (VStr []))
                    else None |} ])
  | ItemOther :: _ => results
  end.

(** One [try]/[except] block of the search-API branch; the handler only
    prints, so the block ends with [results] as it stands. *)
Definition serpapi_block (params : list (pystr * pystr))
           (listing_of : serp_json -> option (option serp_listing))
           (with_date : bool) (cap : nat) (results : list result)
  : M (list result) :=
  try_catch
    (response <- http_get w (Get (u "https://serpapi.com/search") params [] 10) ;;
     if (status_code response =? 200)%Z then
       match listing_of (json response) with
       | None => raise (Failure (u "JSONDecodeError"))
       | Some None => ret results
       | Some (Some NotSliceable) => raise (Failure (u "TypeError"))
       | Some (Some (Listing items)) =>
         ret (append_items with_date (firstn cap items) results)
       end
     else ret results)
    (fun _ => ret results).

Definition organic_of (j : serp_json) : option (option serp_listing) :=
  match j with
  | JsonError => None
  | JsonData organic _ => Some organic
  end.

Definition news_of (j : serp_json) : option (option serp_listing) :=
  match j with
  | JsonError => None
  | JsonData _ news => Some news
  end.

Definition _search_company_info (self : summarizer) (company_name : pystr)
           (company_url : option pystr) : M (list result) :=
  let results := [] in
  results <-
    (match serpapi_key self with
     | Some key =>
       if nonempty key then
         results <-
           serpapi_block
             [ (u "q", general_query company_name); (u "api_key", key);
               (u "engine", u "google"); (u "hl", u "ko"); (u "gl", u "kr") ]
             organic_of false 5 results ;;
         serpapi_block
           [ (u "q", news_query company_name); (u "api_key", key);
             (u "engine", u "google"); (u "tbm", u "nws");
             (u "hl", u "ko"); (u "gl", u "kr") ]
           news_of true 3 results
       else ret results
     | None => ret results
     end) ;;
  if negb (opt_truthy (serpapi_key self)) then
    results <-
      try_catch
        (ddg_results <- _search_duckduckgo_html (general_query company_name) 5 false ;;
         ret (results ++ ddg_results))
        (fun _ => ret results) ;;
    try_catch
      (news_results <- _search_duckduckgo_html (news_query company_name) 3 true ;;
       ret (results ++ news_results))
      (fun _ => ret results)
  else ret results.

(** *** [_fetch_website_content] *)

Definition _fetch_website_content (url : pystr) : M (option pystr) :=
  try_catch
    (response <-
       http_get w
         (Get url []
              [ (u "User-Agent",
                 u "Mozilla/5.0 (Windows NT 10.0; Win64; x64) AppleWebKit/537.36") ]
              10) ;;
     _ <- raise_for_status response ;;
     let soup :=
         decompose_all [u "script"; u "style"; u "nav"; u "footer"; u "header"]
                       (soup response) in
     let text := get_text_sep (u " ") soup in
     ret (Some (if (5000 <? length text)%nat then firstn 5000 text else text)))
    (fun _ => ret None).

(** *** [_format_openai_error] *)

Definition quota_message (section_name : pystr) : pystr :=
  u "❌ " ++ section_name ++ u " 생성 실패: OpenAI API 할당량 초과

현재 OpenAI API 계정의 크레딧이 부족하거나 할당량을 초과했습니다.

해결 방법:
1. OpenAI 대시보드에서 계정 상태 확인: https://platform.openai.com/account/usage
2. 결제 정보를 추가하거나 크레딧을 충전하세요
3. 또는 다른 OpenAI API 키를 사용하세요

자세한 정보: https://platform.openai.com/docs/guides/error-codes/api-errors".

Definition auth_message (section_name : pystr) : pystr :=
  u "❌ " ++ section_name ++ u " 생성 실패: OpenAI API 키 오류

API 키가 유효하지 않거나 만료되었습니다.

해결 방법:
1. .env 파일의 OPENAI_API_KEY가 올바른지 확인하세요
2. https://platform.openai.com/api-keys 에서 새 API 키를 발급받으세요".

Definition generic_message (section_name error_str : pystr) : pystr :=
  u "❌ " ++ section_name ++ u " 생성 중 오류 발생

오류 내용: " ++ error_str ++ u "

문제가 지속되면:
- 네트워크 연결을 확인하세요
- OpenAI 서비스 상태를 확인하세요: https://status.openai.com/
- API 키와 계정 상태를 확인하세요".

Definition _format_openai_error (error : exn) (section_name : pystr) : pystr :=
  let error_str := str_exn error in
  if str_in (u "insufficient_quota") error_str || str_in (u "429") error_str
  then quota_message section_name
  else if str_in (u "invalid_api_key") error_str || str_in (u "401") error_str
  then auth_message section_name
  else generic_message section_name error_str.

(** *** Classification *)

(** [[r for r in rs if p(r)]], [p] possibly raising. *)
Fixpoint filter_o {A} (p : A -> outcome bool) (rs : list A)
  : outcome (list A) :=
  match rs with
  | [] => Returns []
  | r :: rs' =>
    let* keep := p r in
    let* kept := filter_o p rs' in
    Returns (if keep then r :: kept else kept)
  end.

(** [r.get("title", "").lower() + r.get("snippet", "").lower()]. *)
Definition lowered_text (r : result) : outcome pystr :=
  let* t := py_lower (title r) in
  let* s := py_lower (snippet r) in
  Returns (t ++ s).

(** [any(keyword in <lowered text> for keyword in keywords)]: the text is
    computed anew for every keyword tried. *)
Fixpoint any_keyword (keywords : list pystr) (r : result) : outcome bool :=
  match keywords with
  | [] => Returns false
  | keyword :: keywords' =>
    let* text := lowered_text r in
    if str_in keyword text then Returns true
    else any_keyword keywords' r
  end.

(** The keyword list of [_generate_talent_profile] and the one of
    [_format_search_results_as_talent_profile]. *)
Definition talent_keywords_generate : list pystr :=
  [u "인재상"; u "채용"; u "인재"; u "인사"; u "인재상"; u "인재관"].

Definition talent_keywords : list pystr :=
  [u "인재상"; u "채용"; u "인재"; u "인사"; u "인재관"].

Definition vision_keywords : list pystr :=
  [u "비전"; u "전략"; u "목표"; u "방향"; u "미래"].

Definition talent_results_generate (search_results : list result)
  : outcome (list result) :=
  filter_o (any_keyword talent_keywords_generate) search_results.

Definition talent_results (search_results : list result)
  : outcome (list result) :=
  filter_o (any_keyword talent_keywords) search_results.

(** [r.get("date") or "뉴스" in title.lower() or "기사" in title.lower()]. *)
Definition is_news_result (r : result) : outcome bool :=
  if truthy (get_date r) then Returns true
  else
    let* t := py_lower (title r) in
    if str_in (u "뉴스") t then Returns true
    else
      let* t := py_lower (title r) in
      Returns (str_in (u "기사") t).

Definition news_results (search_results : list result)
  : outcome (list result) :=
  filter_o is_news_result search_results.

Definition vision_results (search_results : list result)
  : outcome (list result) :=
  filter_o (any_keyword vision_keywords) search_results.

(** [website_content and ("인재상" in website_content or "채용" in
    website_content)]. *)
Definition mentions_talent (website_content : option pystr) : bool :=
  match website_content with
  | Some c => nonempty c && (str_in (u "인재상") c || str_in (u "채용") c)
  | None => false
  end.

(** *** The formatters used without a model *)

(** One numbered entry: [head] is the title, or the dated title of a news
    entry. *)
Definition entry (i : nat) (head : pystr) (r : result) : pystr :=
  str_of_nat i ++ u ". " ++ head ++ nl
  ++ (if truthy (snippet r) then u "   " ++ fmt (snippet r) ++ nl else [])
  ++ (if truthy (link r) then u "   링크: " ++ fmt (link r) ++ nl else [])
  ++ nl.

(** [for i, result in enumerate(rs, i): text += ...]. *)
Fixpoint entries (head : result -> pystr) (i : nat) (rs : list result) : pystr :=
  match rs with
  | [] => []
  | r :: rs' => entry i (head r) r ++ entries head (S i) rs'
  end.

Definition plain_head (r : result) : pystr := fmt (title r).

Definition dated_head (r : result) : pystr :=
  u "[" ++ fmt (get_date_or (u "날짜 미상") r) ++ u "] " ++ fmt (title r).

Definition _format_search_results_as_overview (company_name : pystr)
           (search_results : list result) (website_content : option pystr)
  : pystr :=
  let text := u "=== " ++ company_name ++ u " 회사 개요 ===" ++ nl ++ nl in
  if negb (nonempty search_results) && negb (opt_truthy website_content) then
    text ++ u "검색 결과를 찾을 수 없습니다. 회사 홈페이지 URL을 입력하시면 더 많은 정보를 얻을 수 있습니다."
  else
    let text :=
        if nonempty search_results then
          text ++ u "【검색 결과】" ++ nl ++ nl
               ++ entries plain_head 1 (firstn 5 search_results)
        else text in
    match website_content with
    | Some c =>
      if nonempty c then
        text ++ nl ++ u "【회사 홈페이지 내용】" ++ nl ++ nl
             ++ firstn 2000 c
             ++ (if (2000 <? length c)%nat
                 then u "... (내용이 길어 일부만 표시됩니다)" else [])
      else text
    | None => text
    end.

Definition _format_search_results_as_talent_profile (company_name : pystr)
           (search_results : list result) (website_content : option pystr)
  : outcome pystr :=
  let text := u "=== " ++ company_name ++ u " 인재상 ===" ++ nl ++ nl in
  let* talent_results := talent_results search_results in
  let text :=
      if nonempty talent_results then
        text ++ u "【인재상 관련 검색 결과】" ++ nl ++ nl
             ++ entries plain_head 1 (firstn 5 talent_results)
      else text ++ u "인재상 관련 검색 결과를 찾을 수 없습니다." ++ nl ++ nl in
  let text :=
      if mentions_talent website_content then
        let c := match website_content with Some c => c | None => [] end in
        let lines := split 10%N c in
        let talent_lines :=
            filter (fun line => str_in (u "인재상") line || str_in (u "채용") line
                                || str_in (u "인재") line) lines in
        text ++ nl ++ u "【홈페이지 인재상 관련 내용】" ++ nl ++ nl
             ++ (if nonempty talent_lines
                 then join nl (firstn 10 talent_lines)
                 else firstn 1000 c)
      else text in
  Returns
    (if negb (nonempty talent_results) && negb (mentions_talent website_content)
     then text ++ nl ++ u "💡 팁: 회사 홈페이지의 채용 페이지나 인재상 페이지 URL을 입력하시면 더 정확한 정보를 얻을 수 있습니다."
     else text).

Definition _format_search_results_as_vision (company_name : pystr)
           (search_results : list result) : outcome pystr :=
  let text := u "=== " ++ company_name ++ u " 최근 비전 및 전략 ===" ++ nl ++ nl in
  let* news_results := news_results search_results in
  if nonempty news_results then
    Returns (text ++ u "【최근 뉴스/기사】" ++ nl ++ nl
                  ++ entries dated_head 1 (firstn 5 news_results))
  else
    let* vision_results := vision_results search_results in
    if nonempty vision_results then
      Returns (text ++ u "【비전/전략 관련 정보】" ++ nl ++ nl
                    ++ entries plain_head 1 (firstn 5 vision_results))
    else
      let text := text ++ u "최근 비전/전략 관련 정보를 찾을 수 없습니다." ++ nl ++ nl in
      Returns
        (if nonempty search_results then
           text ++ u "【일반 검색 결과】" ++ nl ++ nl
                ++ entries plain_head 1 (firstn 3 search_results)
         else text).

(** *** The generators used with a model *)

(** [try: return create(...).choices[0].message.content.strip()
     except Exception as e: return self._format_openai_error(e, section)]. *)
Definition ask_model (system prompt : pystr) (max_tokens : Z)
           (section_name : pystr) : M pystr :=
  try_catch
    (content <-
       chat_completions_create w
         (ChatCreate (u "gpt-4o-mini") system prompt (u "0.7") max_tokens) ;;
     ret (strip content))
    (fun e => ret (_format_openai_error e section_name)).

Fixpoint overview_items (i : nat) (rs : list result) : pystr :=
  match rs with
  | [] => []
  | r :: rs' =>
    str_of_nat i ++ u ". " ++ fmt (title r) ++ nl
    ++ u "   " ++ fmt (snippet r) ++ nl ++ nl
    ++ overview_items (S i) rs'
  end.

Definition _generate_overview (company_name : pystr)
           (search_results : list result) (website_content : option pystr)
  : M pystr :=
  let context := u "회사 이름: " ++ company_name ++ nl ++ nl in
  let context :=
      if nonempty search_results then
        context ++ u "검색 결과:" ++ nl
                ++ overview_items 1 (firstn 5 search_results)
      else context in
  let context :=
      match website_content with
      | Some c =>
        if nonempty c then
          context ++ nl ++ u "회사 홈페이지 내용 (일부):" ++ nl
                  ++ firstn 2000 c ++ nl
        else context
      | None => context
      end in
  let prompt :=
      u "다음 정보를 바탕으로 " ++ company_name ++ u "의 회사 개요를 한국어로 작성해주세요.
회사 개요에는 다음 내용이 포함되어야 합니다:
- 회사의 주요 사업 분야
- 회사의 규모와 위치
- 회사의 주요 제품/서비스
- 회사의 특징이나 강점

정보:
" ++ context ++ u "

회사 개요를 3-5문단으로 작성해주세요. 객관적이고 정확한 정보만 포함해주세요." in
  ask_model (u "당신은 회사 정보를 분석하고 요약하는 전문가입니다.") prompt 1000
            (u "회사 개요").

Definition colon_items (rs : list result) : pystr :=
  flat_map (fun r => u "- " ++ fmt (title r) ++ u ": " ++ fmt (snippet r) ++ nl)
           rs.

Definition _generate_talent_profile (company_name : pystr)
           (search_results : list result) (website_content : option pystr)
  : M pystr :=
  let context := u "회사 이름: " ++ company_name ++ nl ++ nl in
  talent_results <- lift (talent_results_generate search_results) ;;
  let context :=
      if nonempty talent_results then
        context ++ u "인재상 관련 정보:" ++ nl
                ++ colon_items (firstn 3 talent_results)
      else context in
  let context :=
      if mentions_talent website_content then
        let c := match website_content with Some c => c | None => [] end in
        context ++ nl ++ u "홈페이지 인재상 관련 내용:" ++ nl
                ++ firstn 1500 c ++ nl
      else context in
  let prompt :=
      u "다음 정보를 바탕으로 " ++ company_name ++ u "의 인재상과 인재상 키워드를 한국어로 작성해주세요.
인재상에는 다음 내용이 포함되어야 합니다:
- 회사가 선호하는 인재의 특성
- 인재상 키워드 (3-5개)
- 회사가 중시하는 가치관이나 역량

정보:
" ++ context ++ u "

인재상을 2-4문단으로 작성하고, 마지막에 " ++ dq ++ u "인재상 키워드: [키워드1, 키워드2, ...]" ++ dq ++ u " 형식으로 정리해주세요." in
  ask_model (u "당신은 회사 인재상을 분석하는 전문가입니다.") prompt 800
            (u "인재상").

Definition dated_items (rs : list result) : pystr :=
  flat_map (fun r =>
              u "- [" ++ fmt (get_date_or (u "날짜 미상") r) ++ u "] "
                ++ fmt (title r) ++ nl
                ++ u "  " ++ fmt (snippet r) ++ nl ++ nl)
           rs.

(** The context of [_generate_recent_vision], built before the model is
    called. *)
Definition recent_vision_context (company_name : pystr)
           (search_results : list result) : outcome pystr :=
  let* news_results := news_results search_results in
  let context := u "회사 이름: " ++ company_name ++ nl ++ nl in
  if nonempty news_results then
    Returns (context ++ u "최근 뉴스/기사:" ++ nl
                     ++ dated_items (firstn 5 news_results))
  else
    let* vision_results := vision_results search_results in
    Returns (if nonempty vision_results then
               context ++ u "비전/전략 관련 정보:" ++ nl
                       ++ colon_items (firstn 3 vision_results)
             else context).

Definition _generate_recent_vision (company_name : pystr)
           (search_results : list result) : M pystr :=
  context <- lift (recent_vision_context company_name search_results) ;;
  let prompt :=
      u "다음 정보를 바탕으로 " ++ company_name ++ u "의 최근 비전과 전략을 한국어로 작성해주세요.
최근 비전에는 다음 내용이 포함되어야 합니다:
- 회사의 최근 발표된 비전이나 목표
- 중장기 전략 방향
- 최근 주요 이슈나 변화

정보:
" ++ context ++ u "

최근 비전을 3-5문단으로 작성해주세요. 최근 뉴스나 기사를 기반으로 한 구체적인 내용을 포함해주세요." in
  ask_model (u "당신은 회사 비전과 전략을 분석하는 전문가입니다.") prompt 1000
            (u "최근 비전").

(** *** [summarize_company] *)

Definition summarize_company (self : summarizer) (company_name : pystr)
           (company_url : option pystr)
  : M (list (pystr * option pystr)) :=
  search_results <- _search_company_info self company_name company_url ;;
  website_content <-
    (match company_url with
     | Some url =>
       if nonempty url then _fetch_website_content url else ret None
     | None => ret None
     end) ;;
  result <-
    (if client self then
       overview <- _generate_overview company_name search_results website_content ;;
       talent_profile <-
         _generate_talent_profile company_name search_results website_content ;;
       recent_vision <- _generate_recent_vision company_name search_results ;;
       ret {| overview := Some overview;
              talent_profile := Some talent_profile;
              recent_vision := Some recent_vision |}
     else
       let overview :=
           _format_search_results_as_overview company_name search_results
                                             website_content in
       talent_profile <-
         lift (_format_search_results_as_talent_profile
                 company_name search_results website_content) ;;
       recent_vision <-
         lift (_format_search_results_as_vision company_name search_results) ;;
       ret {| overview := Some overview;
              talent_profile := Some talent_profile;
              recent_vision := Some recent_vision |}) ;;
  ret (to_dict result).

(** *** [main] of the command-line front end

    The two lines read from standard input are its arguments; [None] is the
    early [return] after the "name is required" message. *)
Definition main (env : environ) (name_line url_line : pystr)
  : M (option (list (pystr * option pystr))) :=
  let company_name := strip name_line in
  let company_url :=
      if nonempty (strip url_line) then Some (strip url_line) else None in
  if negb (nonempty company_name) then ret None
  else
    let summarizer := init env in
    result <- summarize_company summarizer company_name company_url ;;
    ret (Some result).

End Summarizer.

(* ================================================================= *)
(** ** Vocabulary of the statements *)

(** [needle] occurs in [hay] as a contiguous substring. *)
Definition occurs_in (needle hay : pystr) : Prop :=
  exists pre post, hay = pre ++ needle ++ post.

(** The markers [_format_openai_error] looks for. *)
Definition quota_marked (error_str : pystr) : Prop :=
  occurs_in (u "insufficient_quota") error_str \/ occurs_in (u "429") error_str.

Definition auth_marked (error_str : pystr) : Prop :=
  occurs_in (u "invalid_api_key") error_str \/ occurs_in (u "401") error_str.

(** The lower-cased title followed by the lower-cased snippet of a result
    whose two fields are strings. *)
Definition lowered (lower : pystr -> pystr) (r : result) : pystr :=
  lower (fmt (title r)) ++ lower (fmt (snippet r)).

Definition has_keyword (lower : pystr -> pystr) (keywords : list pystr)
           (r : result) : Prop :=
  exists k, In k keywords /\ occurs_in k (lowered lower r).

(** The decidable form of [has_keyword]. *)
Definition mentions (lower : pystr -> pystr) (keywords : list pystr)
           (r : result) : bool :=
  existsb (fun k => str_in k (lowered lower r)) keywords.

(** A non-empty date, or a news/article marker in the lower-cased title. *)
Definition news_like (lower : pystr -> pystr) (r : result) : Prop :=
  truthy (get_date r) = true
  \/ occurs_in (u "뉴스") (lower (fmt (title r)))
  \/ occurs_in (u "기사") (lower (fmt (title r))).

(** The decidable form of [news_like]. *)
Definition dated_or_news (lower : pystr -> pystr) (r : result) : bool :=
  truthy (get_date r)
  || str_in (u "뉴스") (lower (fmt (title r)))
  || str_in (u "기사") (lower (fmt (title r))).

(** A candidate block that yields a result: it has a title element whose
    stripped text is not empty. *)
Definition has_title (element : node) : bool :=
  match title_elem element with
  | Some te => nonempty (get_text te)
  | None => false
  end.

(** The program's own test for an absolute URL. *)
Definition is_absolute (link : pystr) : bool := startswith link (u "http").

Definition is_wrapped (link : pystr) : bool := startswith link (u "/l/?").

(** Every URL reported by a HEAD response is absolute. *)
Definition absolute_redirects (w : world) : Prop :=
  forall l req final_url,
    requests_head w l req = Returns final_url ->
    nonempty final_url = true -> is_absolute final_url = true.

(** What the extractor stores: string fields, a title that is not empty, a
    link satisfying [Q], and a date exactly for news searches. *)
Definition kept (Q : pystr -> Prop) (is_news : bool) (r : result) : Prop :=
  exists t s k,
    title r = VStr t /\ t <> [] /\ snippet r = VStr s /\ link r = VStr k
    /\ Q k
    /\ if is_news then exists d, date r = Some (VStr d) else date r = None.

(** The HEAD request of every redirect resolution succeeds with an absolute
    URL. *)
Definition redirects_resolve (w : world) : Prop :=
  forall l req, exists final_url,
    requests_head w l req = Returns final_url /\ is_absolute final_url = true.

(** The text a section gets when the model call raised [e]. *)
Definition error_text_for (e : exn) (section_name text : pystr) : Prop :=
  (quota_marked (str_exn e) ->
   text = quota_message section_name
   /\ occurs_in (u "https://platform.openai.com/account/usage") text
   /\ occurs_in (u "OpenAI API 할당량 초과") text)
  /\ (~ quota_marked (str_exn e) -> auth_marked (str_exn e) ->
      text = auth_message section_name
      /\ occurs_in (u "https://platform.openai.com/api-keys") text)
  /\ (~ quota_marked (str_exn e) -> ~ auth_marked (str_exn e) ->
      text = generic_message section_name (str_exn e)
      /\ occurs_in (str_exn e) text).

(** A generator run from log [l]: it returns a string after exactly one
    request, and when that request raises, the string is the message for
    the error. *)
Definition reports_model_errors (w : world) (section_name : pystr)
           (run : M pystr) (l : log) : Prop :=
  exists req text,
    run l = (Returns text, l ++ [req])
    /\ forall e, chat_create w l req = Raises e ->
                 error_text_for e section_name text.

(** A computation that returns, with a value satisfying [P], from every
    log. *)
Definition returns {A} (P : A -> Prop) (m : M A) : Prop :=
  forall l, exists a l', m l = (Returns a, l') /\ P a.

(* ================================================================= *)
(** ** Concrete environments and pages *)

(** No network and no model: every call raises. *)
Definition offline : world :=
  {| requests_get := fun _ _ => Raises (Failure (u "ConnectionError"));
     requests_head := fun _ _ => Raises (Failure (u "ConnectionError"));
     chat_create := fun _ _ => Raises (Failure (u "ConnectionError"));
     openai_new := fun _ => true |}.

(** No pages, but every HEAD request is redirected to an absolute URL. *)
Definition redirecting : world :=
  {| requests_get := fun _ _ => Raises (Failure (u "ConnectionError"));
     requests_head := fun _ _ => Returns (u "https://a.example/landing");
     chat_create := fun _ _ => Raises (Failure (u "ConnectionError"));
     openai_new := fun _ => true |}.

Definition no_keys : summarizer := {| client := false; serpapi_key := None |}.

Definition with_serpapi : summarizer :=
  {| client := false; serpapi_key := Some (u "key") |}.

Definition page (children : list node) : node :=
  Tag (u "[document]") None None children.

(** A search API answering every query with one organic hit whose title is
    JSON [null]. *)
Definition null_title_api : world :=
  {| requests_get := fun _ _ =>
       Returns {| status_code := 200;
                  json := JsonData
                            (Some (Listing [ItemDict [(u "title", VNone)]]))
                            None;
                  soup := page [] |};
     requests_head := fun _ _ => Raises (Failure (u "ConnectionError"));
     chat_create := fun _ _ => Raises (Failure (u "ConnectionError"));
     openai_new := fun _ => true |}.

(** The model answers every request with error 429. *)
Definition quota_world : world :=
  {| requests_get := fun _ _ => Raises (Failure (u "ConnectionError"));
     requests_head := fun _ _ => Raises (Failure (u "ConnectionError"));
     chat_create := fun _ _ =>
       Raises (Failure (u "Error code: 429 - insufficient_quota"));
     openai_new := fun _ => true |}.

(** [<div class="result"><a class="result__a" href="/l/?uddg=x">T</a></div>] *)
Definition wrapped_hit : node :=
  Tag (u "div") (Some [u "result"]) None
      [Tag (u "a") (Some [u "result__a"]) (Some (u "/l/?uddg=x")) [Text (u "T")]].




(** [<div class="result"><a href="https://a.example/">A</a></div>] *)
Definition plain_hit : node :=
  Tag (u "div") (Some [u "result"]) None
      [Tag (u "a") None (Some (u "https://a.example/")) [Text (u "A")]].

Definition hiring_result : result :=
  {| title := VStr (u "Acme 채용 공고"); snippet := VStr (u "신입 모집");
     link := VStr (u "https://a.example/jobs"); date := None |}.

Definition news_result : result :=
  {| title := VStr (u "Acme 신제품"); snippet := VStr (u "발표");
     link := VStr (u "https://a.example/n"); date := Some (VStr (u "3일 전")) |}.

Definition other_result : result :=
  {| title := VStr (u "Acme"); snippet := VStr (u "home");
     link := VStr (u "https://a.example/"); date := None |}.

(* ================================================================= *)
(** ** The desktop front end *)



(* ================================================================= *)
(** ** Vocabulary of the further statements *)

(** The HEAD request that resolves a wrapped link. *)
Definition head_request (link : pystr) : request :=
  Head (u "https://duckduckgo.com" ++ link) ddg_headers 5.

(** The wrapped links among the title links of the candidates, in order. *)
Definition wrapped_links (elements : list node) : list pystr :=
  flat_map (fun element =>
              match title_elem element with
              | Some te =>
                if is_wrapped (get_href te) then [get_href te] else []
              | None => []
              end) elements.

(** The one GET request of a free search. *)
Definition ddg_get : request :=
  Get (u "https://duckduckgo.com/html/?q=미래시스템") [] ddg_headers 10.

(** The GET request of a homepage fetch. *)
Definition website_get (url : pystr) : request :=
  Get url []
      [ (u "User-Agent",
         u "Mozilla/5.0 (Windows NT 10.0; Win64; x64) AppleWebKit/537.36") ]
      10.



Definition is_chat (r : request) : bool :=
  match r with
  | ChatCreate _ _ _ _ _ => true
  | _ => false
  end.

(** A failing answer to a GET: an exception, or a status that
    [raise_for_status] rejects. *)
Definition get_fails (o : outcome response) : Prop :=
  match o with
  | Raises _ => True
  | Returns r => (400 <= status_code r < 600)%Z
  end.


(** The date key is present exactly in the results of a news search. *)
Definition dated_as (is_news : bool) (r : result) : Prop :=
  if is_news then exists d, date r = Some (VStr d) else date r = None.

(** From every log the computation ends with the log extended by requests
    that satisfy [R], whether it returns or raises. *)
Definition appends {A} (R : request -> Prop) (m : M A) : Prop :=
  forall l, exists o suffix, m l = (o, l ++ suffix) /\ Forall R suffix.

(** The result built for a JSON object of the search API. *)
Definition result_of_fields (with_date : bool) (fields : list (pystr * pyval))
  : result :=
  {| title := dict_get fields (u "title") (VStr []);
     snippet := dict_get fields (u "snippet") (VStr []);
     link := dict_get fields (u "link") (VStr []);
     date := if with_date
             then Some (dict_get fields (u "date") (VStr []))
             else None |}.

(** A tag whose name is not in [names]. *)
Definition not_named (names : list pystr) (n : node) : Prop :=
  match n with
  | Tag nm _ _ _ => existsb (str_eqb nm) names = false
  | Text _ => True
  end.

Definition with_model : summarizer := {| client := true; serpapi_key := None |}.

(** A page served with status 200. *)
Definition serving (soup : node) : world :=
  {| requests_get := fun _ _ =>
       Returns {| status_code := 200; json := JsonError; soup := soup |};
     requests_head := fun _ _ => Returns (u "https://a.example/landing");
     chat_create := fun _ _ => Returns (u " 요약 ");
     openai_new := fun _ => true |}.

(** [<html><script>x</script><p> Acme </p><nav><a>menu</a></nav></html>] *)
Definition home_page : node :=
  page [Tag (u "html") None None
            [ Tag (u "script") None None [Text (u "x")];
              Tag (u "p") None None [Text (u " Acme ")];
              Tag (u "nav") None None
                  [Tag (u "a") None None [Text (u "menu")]] ]].

(* ================================================================= *)
(** ** Substrings *)

Lemma startswith_spec (s prefix : pystr) :
  startswith s prefix = true <-> exists rest, s = prefix ++ rest.
Proof.
  revert s; induction prefix as [|p prefix IH]; intros s; simpl.
  - split; [intros _; now exists s | intros _; now destruct s].
  - destruct s as [|c s]; simpl.
    + split; [discriminate | intros [rest H]; discriminate].
    + rewrite andb_true_iff, N.eqb_eq, IH. split.
      * intros [-> [rest ->]]. now exists rest.
      * intros [rest H]. injection H as -> ->. split; [reflexivity|now exists rest].
Qed.

Lemma str_in_spec (needle hay : pystr) :
  str_in needle hay = true <-> occurs_in needle hay.
Proof.
  unfold occurs_in. induction hay as [|c hay IH].
  - cbn [str_in]. rewrite orb_false_r, startswith_spec. split.
    + intros [rest H]. now exists [], rest.
    + intros [pre [post H]]. destruct pre; [|discriminate].
      now exists post.
  - cbn [str_in]. rewrite orb_true_iff, IH, startswith_spec. split.
    + intros [[rest H] | [pre [post H]]].
      * now exists [], rest.
      * exists (c :: pre), post. now rewrite H.
    + intros [pre [post H]]. destruct pre as [|c' pre].
      * left. now exists post.
      * right. injection H as _ H. now exists pre, post.
Qed.

Lemma occurs_in_app_r (needle a b : pystr) :
  occurs_in needle b -> occurs_in needle (a ++ b).
Proof.
  intros [pre [post ->]]. exists (a ++ pre), post. now rewrite <- app_assoc.
Qed.

Lemma occurs_in_app_l (needle a b : pystr) :
  occurs_in needle a -> occurs_in needle (a ++ b).
Proof.
  intros [pre [post ->]]. exists pre, (post ++ b).
  now rewrite <- !app_assoc.
Qed.

Lemma occurs_in_refl (s : pystr) : occurs_in s s.
Proof. exists [], []. now rewrite app_nil_r. Qed.

(* ================================================================= *)
(** ** Model-call errors *)

Lemma format_openai_error_quota (e : exn) (section_name : pystr) :
  quota_marked (str_exn e) ->
  _format_openai_error e section_name = quota_message section_name.
Proof.
  intros H. unfold _format_openai_error.
  destruct H as [H | H]; apply str_in_spec in H; rewrite H;
    now rewrite ?orb_true_r.
Qed.

Lemma format_openai_error_auth (e : exn) (section_name : pystr) :
  ~ quota_marked (str_exn e) -> auth_marked (str_exn e) ->
  _format_openai_error e section_name = auth_message section_name.
Proof.
  intros Hq Ha. unfold _format_openai_error, quota_marked in *.
  destruct (str_in (u "insufficient_quota") (str_exn e)) eqn:E1.
  { exfalso. apply Hq. left. now apply str_in_spec. }
  destruct (str_in (u "429") (str_exn e)) eqn:E2.
  { exfalso. apply Hq. right. now apply str_in_spec. }
  cbn [orb].
  destruct Ha as [H | H]; apply str_in_spec in H; rewrite H;
    now rewrite ?orb_true_r.
Qed.

Lemma format_openai_error_other (e : exn) (section_name : pystr) :
  ~ quota_marked (str_exn e) -> ~ auth_marked (str_exn e) ->
  _format_openai_error e section_name
  = generic_message section_name (str_exn e).
Proof.
  intros Hq Ha. unfold _format_openai_error, quota_marked, auth_marked in *.
  destruct (str_in (u "insufficient_quota") (str_exn e)) eqn:E1.
  { exfalso. apply Hq. left. now apply str_in_spec. }
  destruct (str_in (u "429") (str_exn e)) eqn:E2.
  { exfalso. apply Hq. right. now apply str_in_spec. }
  destruct (str_in (u "invalid_api_key") (str_exn e)) eqn:E3.
  { exfalso. apply Ha. left. now apply str_in_spec. }
  destruct (str_in (u "401") (str_exn e)) eqn:E4.
  { exfalso. apply Ha. right. now apply str_in_spec. }
  reflexivity.
Qed.

Lemma quota_message_names_dashboard (section_name : pystr) :
  occurs_in (u "https://platform.openai.com/account/usage")
            (quota_message section_name)
  /\ occurs_in (u "OpenAI API 할당량 초과") (quota_message section_name).
Proof.
  unfold quota_message.
  split; do 2 apply occurs_in_app_r; apply str_in_spec; vm_compute; reflexivity.
Qed.

Lemma auth_message_names_key_page (section_name : pystr) :
  occurs_in (u "https://platform.openai.com/api-keys")
            (auth_message section_name).
Proof.
  unfold auth_message.
  do 2 apply occurs_in_app_r; apply str_in_spec; vm_compute; reflexivity.
Qed.

Lemma generic_message_shows_error (section_name error_str : pystr) :
  occurs_in error_str (generic_message section_name error_str).
Proof.
  unfold generic_message.
  do 3 apply occurs_in_app_r. apply occurs_in_app_l, occurs_in_refl.
Qed.

Lemma quota_message_is_not_auth_message (section_name : pystr) :
  quota_message section_name <> auth_message section_name.
Proof.
  unfold quota_message, auth_message. intros H.
  apply app_inv_head in H. apply app_inv_head in H.
  vm_compute in H. discriminate H.
Qed.

(** [ask_model] always returns, after exactly one request. *)
Lemma ask_model_run (w : world) (system prompt : pystr) (max_tokens : Z)
      (section_name : pystr) (l : log) :
  let req := ChatCreate (u "gpt-4o-mini") system prompt (u "0.7") max_tokens in
  ask_model w system prompt max_tokens section_name l
  = (Returns match chat_create w l req with
             | Returns content => strip content
             | Raises e => _format_openai_error e section_name
             end,
     l ++ [req]).
Proof.
  unfold ask_model, try_catch, bind, chat_completions_create, ret.
  cbv zeta. destruct (chat_create w l _); reflexivity.
Qed.

(* ================================================================= *)
(** ** Classification *)

Section Classification.

Variable lower : pystr -> pystr.

Lemma filter_o_returns {A} (p : A -> outcome bool) (q : A -> bool)
      (rs : list A) :
  Forall (fun r => p r = Returns (q r)) rs ->
  filter_o p rs = Returns (filter q rs).
Proof.
  induction 1 as [|r rs Hr _ IH]; simpl.
  - reflexivity.
  - rewrite Hr, IH. simpl. now destruct (q r).
Qed.

Lemma lowered_text_textual (r : result) :
  textual r -> lowered_text lower r = Returns (lowered lower r).
Proof.
  intros [[t Ht] [s Hs]]. unfold lowered_text, lowered.
  now rewrite Ht, Hs.
Qed.

Lemma any_keyword_textual (keywords : list pystr) (r : result) :
  textual r -> any_keyword lower keywords r = Returns (mentions lower keywords r).
Proof.
  intros Hr. unfold mentions.
  induction keywords as [|k keywords IH]; simpl.
  - reflexivity.
  - rewrite (lowered_text_textual Hr). simpl.
    destruct (str_in k (lowered lower r)); [reflexivity | exact IH].
Qed.

Lemma mentions_spec (keywords : list pystr) (r : result) :
  mentions lower keywords r = true <-> has_keyword lower keywords r.
Proof.
  unfold mentions, has_keyword. rewrite existsb_exists.
  split; intros [k [Hin Hk]]; exists k; split; trivial;
    now apply str_in_spec.
Qed.

Lemma keyword_filter_textual (keywords : list pystr) (rs : list result) :
  Forall textual rs ->
  filter_o (any_keyword lower keywords) rs
  = Returns (filter (mentions lower keywords) rs).
Proof.
  intros H. apply filter_o_returns.
  eapply Forall_impl; [|exact H]. intros r. apply any_keyword_textual.
Qed.

(** The two talent keyword lists differ by one repeated keyword. *)
Lemma mentions_talent_keywords_generate (r : result) :
  mentions lower talent_keywords_generate r = mentions lower talent_keywords r.
Proof.
  unfold mentions, talent_keywords_generate, talent_keywords. simpl.
  destruct (str_in (u "인재상") (lowered lower r)); simpl; [reflexivity|].
  destruct (str_in (u "채용") (lowered lower r)); simpl; [reflexivity|].
  destruct (str_in (u "인재") (lowered lower r)); simpl; [reflexivity|].
  destruct (str_in (u "인사") (lowered lower r)); reflexivity.
Qed.

Lemma dated_or_news_spec (r : result) :
  dated_or_news lower r = true <-> news_like lower r.
Proof.
  unfold dated_or_news, news_like.
  rewrite !orb_true_iff, !str_in_spec. tauto.
Qed.

Lemma is_news_result_textual (r : result) :
  textual r -> is_news_result lower r = Returns (dated_or_news lower r).
Proof.
  intros [[t Ht] _]. unfold is_news_result, dated_or_news.
  destruct (truthy (get_date r)); [reflexivity|].
  rewrite Ht. simpl.
  destruct (str_in (u "뉴스") (lower t)); reflexivity.
Qed.

Lemma news_results_textual (rs : list result) :
  Forall textual rs ->
  news_results lower rs = Returns (filter (dated_or_news lower) rs).
Proof.
  intros H. apply filter_o_returns.
  eapply Forall_impl; [|exact H]. intros r. apply is_news_result_textual.
Qed.

End Classification.

(* ================================================================= *)
(** ** Computations that always return *)

Lemma returns_ret {A} (P : A -> Prop) (a : A) : P a -> returns P (ret a).
Proof. intros H l. now exists a, l. Qed.

Lemma returns_bind {A B} (P : A -> Prop) (Q : B -> Prop) (m : M A)
      (k : A -> M B) :
  returns P m -> (forall a, P a -> returns Q (k a)) -> returns Q (bind m k).
Proof.
  intros Hm Hk l. destruct (Hm l) as [a [l1 [E Pa]]].
  destruct (Hk a Pa l1) as [b [l2 [E2 Qb]]].
  exists b, l2. unfold bind. now rewrite E.
Qed.

Lemma returns_weaken {A} (P Q : A -> Prop) (m : M A) :
  (forall a, P a -> Q a) -> returns P m -> returns Q m.
Proof.
  intros H Hm l. destruct (Hm l) as [a [l1 [E Pa]]]. exists a, l1. auto.
Qed.

(** A [try] whose handler returns a fixed value. *)
Lemma returns_try_catch {A} (P : A -> Prop) (m : M A) (x : A) :
  P x -> (forall l a l', m l = (Returns a, l') -> P a) ->
  returns P (try_catch m (fun _ => ret x)).
Proof.
  intros Px Hm l. unfold try_catch.
  destruct (m l) as [[a|e] l1] eqn:E.
  - exists a, l1. split; [reflexivity | eauto].
  - exists x, l1. now split.
Qed.

Lemma bind_returns_inv {A B} (m : M A) (k : A -> M B) (l l' : log) (b : B) :
  bind m k l = (Returns b, l') ->
  exists a l1, m l = (Returns a, l1) /\ k a l1 = (Returns b, l').
Proof.
  unfold bind. destruct (m l) as [[a|e] l1]; [|discriminate].
  intros H. now exists a, l1.
Qed.

Lemma returns_lift {A} (P : A -> Prop) (a : A) :
  P a -> returns P (lift (Returns a)).
Proof. intros H l. now exists a, l. Qed.

(* ================================================================= *)
(** ** The result extractor *)

Section Extractor.

Variable lower : pystr -> pystr.
Variable w : world.

Lemma kept_textual (Q : pystr -> Prop) (is_news : bool) (r : result) :
  kept Q is_news r -> textual r.
Proof.
  intros (t & s & k & Ht & _ & Hs & _). split; eauto.
Qed.

Lemma wrapped_kh (link : pystr) :
  startswith link (u "/l/?kh=") || startswith link (u "/l/?")
  = is_wrapped link.
Proof.
  unfold is_wrapped.
  destruct (startswith link (u "/l/?kh=")) eqn:E; [|reflexivity].
  symmetry. apply startswith_spec. apply startswith_spec in E.
  destruct E as [rest ->]. exists (u "kh=" ++ rest). reflexivity.
Qed.

Lemma site_prefix_absolute (link : pystr) :
  is_absolute (u "https://duckduckgo.com" ++ link) = true.
Proof.
  apply startswith_spec. exists (u "s://duckduckgo.com" ++ link). reflexivity.
Qed.

Lemma is_absolute_nonempty (link : pystr) :
  is_absolute link = true -> nonempty link = true.
Proof. destruct link; [discriminate | reflexivity]. Qed.

(** [resolve_link] never raises. *)
Lemma resolve_link_returns (href : pystr) :
  returns (fun _ => True) (resolve_link w href).
Proof.
  intros l. unfold resolve_link. rewrite wrapped_kh.
  destruct (is_wrapped href).
  - unfold try_catch, bind, http_head, ret.
    destruct (requests_head w l _) as [final|e]; [destruct (nonempty final)|];
      eauto.
  - destruct (negb (startswith href (u "http"))); unfold ret; eauto.
Qed.

(** With absolute HEAD answers, the link is absolute or the wrapped link
    itself. *)
Lemma resolve_link_absolute_or_wrapped (href : pystr) :
  absolute_redirects w ->
  returns (fun k => is_absolute k = true \/ is_wrapped k = true)
          (resolve_link w href).
Proof.
  intros Hw l. unfold resolve_link. rewrite wrapped_kh.
  destruct (is_wrapped href) eqn:Ewr.
  - unfold try_catch, bind, http_head, ret.
    destruct (requests_head w l _) as [final|e] eqn:E.
    + destruct (nonempty final) eqn:En; do 2 eexists; split;
        try reflexivity; eauto.
    + do 2 eexists; split; try reflexivity; eauto.
  - destruct (startswith href (u "http")) eqn:Eh; simpl; unfold ret;
      do 2 eexists; (split; [reflexivity|]); left.
    + exact Eh.
    + apply site_prefix_absolute.
Qed.

(** With HEAD requests that always resolve, the link is absolute. *)
Lemma resolve_link_absolute (href : pystr) :
  redirects_resolve w ->
  returns (fun k => is_absolute k = true) (resolve_link w href).
Proof.
  intros Hw l. unfold resolve_link. rewrite wrapped_kh.
  destruct (is_wrapped href) eqn:Ewr.
  - unfold try_catch, bind, http_head, ret.
    destruct (Hw l (Head (u "https://duckduckgo.com" ++ href) ddg_headers 5))
      as [final [E Ha]].
    rewrite E, (is_absolute_nonempty _ Ha). eauto.
  - destruct (startswith href (u "http")) eqn:Eh; simpl; unfold ret;
      do 2 eexists; (split; [reflexivity|]).
    + exact Eh.
    + apply site_prefix_absolute.
Qed.

(** The loop: it returns; every stored result is [kept]; and when the
    candidates cannot exceed the cap, one result is stored for every
    candidate with a title. *)
Lemma extract_loop_spec (Q : pystr -> Prop) (max_results : Z)
      (is_news : bool) :
  (forall href, returns Q (resolve_link w href)) ->
  forall (elements : list node) (results : list result) (l : log),
    Forall (kept Q is_news) results ->
    exists rs l',
      extract_loop w max_results is_news elements results l = (Returns rs, l')
      /\ Forall (kept Q is_news) rs
      /\ ((Z.of_nat (length results + length elements) <= max_results)%Z ->
          length rs = length results + length (filter has_title elements)).
Proof.
  intros Hlink. induction elements as [|element rest IH]; intros results l Hres.
  - exists results, l. simpl. repeat split; trivial; intros; simpl; lia.
  - cbn [extract_loop filter]. unfold has_title at 1.
    destruct (title_elem element) as [te|].
    2:{ destruct (IH results l Hres) as (rs & l' & E & Hk & Hlen).
        exists rs, l'. repeat split; trivial.
        intros Hb. rewrite Hlen; [reflexivity|]. simpl in Hb. lia. }
    unfold bind at 1.
    destruct (Hlink (get_href te) l) as (k & l1 & Ek & Qk). rewrite Ek.
    destruct (get_text te) as [|c t] eqn:Et; cbn [nonempty].
    { destruct (IH results l1 Hres) as (rs & l' & E & Hk & Hlen).
      exists rs, l'. repeat split; trivial.
      intros Hb. rewrite Hlen; [reflexivity|]. simpl in Hb. lia. }
    match goal with
    | |- context [results ++ [?rd]] => set (result_dict := rd)
    end.
    assert (Hres' : Forall (kept Q is_news) (results ++ [result_dict])).
    { apply Forall_app. split; trivial. constructor; [|constructor].
      exists (c :: t), match snippet_elem element with
                       | Some se => get_text se
                       | None => []
                       end, k.
      repeat split; trivial; try discriminate.
      subst result_dict. destruct is_news; simpl; eauto. }
    destruct (max_results <=? Z.of_nat (length (results ++ [result_dict])))%Z
      eqn:Ecap.
    + exists (results ++ [result_dict]), l1. unfold ret.
      repeat split; trivial.
      intros Hb. rewrite length_app in *. simpl in *.
      apply Z.leb_le in Ecap.
      destruct rest; [simpl; lia | simpl in Hb; lia].
    + destruct (IH (results ++ [result_dict]) l1 Hres')
        as (rs & l' & E & Hk & Hlen).
      exists rs, l'. repeat split; trivial.
      intros Hb. rewrite Hlen.
      * rewrite length_app. simpl. lia.
      * rewrite length_app. simpl in *. lia.
Qed.

Lemma slice_to_length {A} (n : Z) (xs : list A) :
  (0 <= n)%Z -> (Z.of_nat (length (slice_to n xs)) <= n)%Z.
Proof.
  intros Hn. unfold slice_to.
  destruct (Z.leb_spec 0 n); [|lia].
  pose proof (firstn_le_length (Z.to_nat n) xs).
  rewrite length_firstn. lia.
Qed.

Lemma result_elements_length (soup : node) (max_results : Z) :
  (0 <= max_results)%Z ->
  (Z.of_nat (length (result_elements lower soup max_results)) <= max_results)%Z.
Proof.
  intros Hn. unfold result_elements, list_or.
  destruct (slice_to max_results (strategy_A soup)) eqn:EA.
  - destruct (slice_to max_results (strategy_B soup)) eqn:EB.
    + now apply slice_to_length.
    + rewrite <- EB. now apply slice_to_length.
  - rewrite <- EA. now apply slice_to_length.
Qed.



(** Extraction from a parsed page: it returns, every result is [kept], and
    there is one result for every candidate with a title. *)
Lemma extract_spec (Q : pystr -> Prop) (soup : node) (max_results : Z)
      (is_news : bool) (l : log) :
  (forall href, returns Q (resolve_link w href)) ->
  exists rs l',
    extract lower w soup max_results is_news l = (Returns rs, l')
    /\ Forall (kept Q is_news) rs
    /\ ((0 <= max_results)%Z ->
        length rs
        = length (filter has_title (result_elements lower soup max_results))).
Proof.
  intros Hlink. unfold extract.
  destruct (@extract_loop_spec Q max_results is_news Hlink
              (result_elements lower soup max_results) [] l (Forall_nil _))
    as (rs & l' & E & Hk & Hlen).
  exists rs, l'. repeat split; trivial.
  intros Hn. apply Hlen. simpl. now apply result_elements_length.
Qed.

Lemma filter_length_le {A} (p : A -> bool) (xs : list A) :
  length (filter p xs) <= length xs.
Proof.
  induction xs as [|x xs IH]; simpl; [lia|]. destruct (p x); simpl; lia.
Qed.


(** [_search_duckduckgo_html] never raises, and its results are [kept]. *)
Lemma search_duckduckgo_html_returns (query : pystr) (max_results : Z)
      (is_news : bool) :
  returns (Forall (kept (fun _ => True) is_news))
          (_search_duckduckgo_html lower w query max_results is_news).
Proof.
  unfold _search_duckduckgo_html. apply returns_try_catch; [constructor|].
  intros l rs l' H.
  apply bind_returns_inv in H. destruct H as (enc & l1 & _ & H).
  apply bind_returns_inv in H. destruct H as (resp & l2 & _ & H).
  apply bind_returns_inv in H. destruct H as (tt' & l3 & _ & H).
  destruct (@extract_spec (fun _ => True) (soup resp) max_results is_news l3
                          resolve_link_returns)
    as (rs' & l4 & E & Hk & _).
  rewrite E in H. now injection H as <- _.
Qed.


Lemma kept_link (Q : pystr -> Prop) (is_news : bool) (rs : list result) :
  Forall (kept Q is_news) rs ->
  Forall (fun r => exists k, link r = VStr k /\ Q k) rs.
Proof.
  apply Forall_impl. intros r (t & s & k & _ & _ & _ & Hk & Qk & _). eauto.
Qed.


(** C4 (amended): every result kept by the extractor has a string link that
    is an absolute URL or an unresolved redirect-wrapper link (beginning
    with "/l/?"), provided the URLs reported by HEAD responses are
    absolute; when every HEAD request resolves, every link is absolute. *)
Theorem kept_links_absolute_or_wrapped (soup : node) (max_results : Z)
        (is_news : bool) (l : log) :
  absolute_redirects w ->
  exists rs l',
    extract lower w soup max_results is_news l = (Returns rs, l')
    /\ Forall (fun r => exists k, link r = VStr k
                        /\ (is_absolute k = true \/ is_wrapped k = true)) rs
    /\ (redirects_resolve w ->
        Forall (fun r => exists k, link r = VStr k /\ is_absolute k = true) rs).
Proof.
  intros Hw.
  destruct (@extract_spec _ soup max_results is_news l
              (fun href => resolve_link_absolute_or_wrapped href Hw))
    as (rs & l' & E & Hk & _).
  exists rs, l'. repeat split; trivial.
  - eapply kept_link in Hk. exact Hk.
  - intros Hr.
    destruct (@extract_spec _ soup max_results is_news l
                (fun href => resolve_link_absolute href Hr))
      as (rs2 & l2 & E2 & Hk2 & _).
    rewrite E in E2. injection E2 as <- _.
    eapply kept_link in Hk2. exact Hk2.
Qed.




End Extractor.

(* ================================================================= *)
(** ** The section classifier and the error messages *)

Section Sections.

Variable lower : pystr -> pystr.
Variable w : world.

(** C7: on results whose title and snippet are strings, both talent
    filters keep exactly the results whose lower-cased title followed by
    the lower-cased snippet contains one of the talent keywords, in the
    original order: the kept list is [filter keep rs] for a test [keep]
    that is true exactly on those results, so no result left out has a
    keyword. *)
Theorem talent_classification_filters (rs : list result) :
  Forall textual rs ->
  exists keep : result -> bool,
    (forall r, keep r = true <-> has_keyword lower talent_keywords r)
    /\ talent_results lower rs = Returns (filter keep rs)
    /\ talent_results_generate lower rs = Returns (filter keep rs).
Proof.
  intros H. exists (mentions lower talent_keywords). split; [|split].
  - intros r. apply mentions_spec.
  - now apply keyword_filter_textual.
  - unfold talent_results_generate.
    rewrite (keyword_filter_textual lower talent_keywords_generate H).
    f_equal. apply filter_ext. intros r.
    apply mentions_talent_keywords_generate.
Qed.


Lemma error_text_for_format (e : exn) (section_name : pystr) :
  error_text_for e section_name (_format_openai_error e section_name).
Proof.
  unfold error_text_for. split; [|split].
  - intros Hq. rewrite (format_openai_error_quota e section_name Hq).
    split; [reflexivity | apply quota_message_names_dashboard].
  - intros Hq Ha. rewrite (format_openai_error_auth e section_name Hq Ha).
    split; [reflexivity | apply auth_message_names_key_page].
  - intros Hq Ha. rewrite (format_openai_error_other e section_name Hq Ha).
    split; [reflexivity | apply generic_message_shows_error].
Qed.

Lemma ask_model_reports (system prompt : pystr) (max_tokens : Z)
      (section_name : pystr) (l : log) :
  reports_model_errors w section_name
    (ask_model w system prompt max_tokens section_name) l.
Proof.
  pose proof (ask_model_run w system prompt max_tokens section_name l) as Hrun.
  cbv zeta in Hrun. do 2 eexists. split; [exact Hrun|].
  intros e He. rewrite He. apply error_text_for_format.
Qed.

(** C9: every section generator returns a string after its one model
    request and never raises (the talent and vision generators on results
    whose title and snippet are strings); when the request raises an error
    [e], the string is the quota message, which names the usage dashboard,
    if [str(e)] has a quota marker, the key message, which names the
    API-key page, if it has an authentication marker and no quota marker,
    and otherwise the generic message, which shows [str(e)]. *)
Theorem model_error_becomes_section_text (company_name : pystr)
        (rs : list result) (website_content : option pystr) (l : log) :
  reports_model_errors w (u "회사 개요")
    (_generate_overview w company_name rs website_content) l
  /\ (Forall textual rs ->
      reports_model_errors w (u "인재상")
        (_generate_talent_profile lower w company_name rs website_content) l
      /\ reports_model_errors w (u "최근 비전")
           (_generate_recent_vision lower w company_name rs) l).
Proof.
  split; [|intros H; split].
  - unfold _generate_overview. cbv zeta. apply ask_model_reports.
  - unfold _generate_talent_profile, talent_results_generate. cbv zeta.
    rewrite (keyword_filter_textual lower talent_keywords_generate H).
    apply ask_model_reports.
  - unfold _generate_recent_vision, recent_vision_context, vision_results.
    rewrite (news_results_textual lower H),
      (keyword_filter_textual lower vision_keywords H).
    cbn [obind].
    destruct (nonempty (filter (dated_or_news lower) rs)); cbn [obind];
      apply ask_model_reports.
Qed.

(** C10: an error text with a quota marker and an authentication marker
    gets the quota message, not the key message. *)
Theorem quota_takes_precedence (e : exn) (section_name : pystr) :
  quota_marked (str_exn e) -> auth_marked (str_exn e) ->
  _format_openai_error e section_name = quota_message section_name
  /\ _format_openai_error e section_name <> auth_message section_name.
Proof.
  intros Hq _. rewrite (format_openai_error_quota e section_name Hq).
  split; [reflexivity | apply quota_message_is_not_auth_message].
Qed.

(** C2 (amended): the command-line front end rejects a company name that
    is empty after stripping before the summarizer is built: it returns
    early and the request log is unchanged. *)
Theorem main_rejects_empty_name (env : environ) (name_line url_line : pystr)
        (l : log) :
  strip name_line = [] ->
  main lower w env name_line url_line l = (Returns None, l).
Proof.
  intros H. unfold main. cbv zeta. now rewrite H.
Qed.

End Sections.

(* ================================================================= *)
(** ** The search aggregator and [summarize_company] *)

Section Pipeline.

Variable lower : pystr -> pystr.
Variable w : world.

Lemma returns_inv {A} (P : A -> Prop) (m : M A) (l l' : log) (a : A) :
  returns P m -> m l = (Returns a, l') -> P a.
Proof.
  intros Hm E. destruct (Hm l) as (a' & l1 & E' & Pa).
  rewrite E in E'. now injection E' as <- _.
Qed.

(** Requests are only ever added to the log. *)
Lemma resolve_link_log (href : pystr) (l : log) :
  exists k suffix, resolve_link w href l = (Returns k, l ++ suffix).
Proof.
  unfold resolve_link. rewrite wrapped_kh.
  destruct (is_wrapped href).
  - unfold try_catch, bind, http_head, ret.
    destruct (requests_head w l _) as [final|e]; [destruct (nonempty final)|];
      eauto.
  - destruct (negb (startswith href (u "http"))); unfold ret;
      do 2 eexists; now rewrite app_nil_r.
Qed.

Lemma extract_loop_log (max_results : Z) (is_news : bool)
      (elements : list node) :
  forall (results : list result) (l : log),
  exists rs suffix,
    extract_loop w max_results is_news elements results l
    = (Returns rs, l ++ suffix).
Proof.
  induction elements as [|element rest IH]; intros results l;
    cbn [extract_loop].
  - exists results, []. now rewrite app_nil_r.
  - destruct (title_elem element) as [te|]; [|apply IH].
    unfold bind at 1.
    destruct (resolve_link_log (get_href te) l) as (k & s1 & ->).
    destruct (nonempty (get_text te)).
    + match goal with
      | |- context [if ?c then _ else _] => destruct c
      end.
      * unfold ret. eauto.
      * match goal with
        | |- context [extract_loop _ _ _ _ ?r _] =>
          destruct (IH r (l ++ s1)) as (rs & s2 & ->)
        end.
        exists rs, (s1 ++ s2). now rewrite app_assoc.
    + destruct (IH results (l ++ s1)) as (rs & s2 & ->).
      exists rs, (s1 ++ s2). now rewrite app_assoc.
Qed.

Lemma always_safe_ascii (b : N) : always_safe b = true -> (b < 128)%N.
Proof.
  unfold always_safe.
  rewrite !orb_true_iff, !andb_true_iff, !N.leb_le, !N.eqb_eq. lia.
Qed.

Lemma quote_byte_head (b : N) :
  exists c rest, quote_byte b = c :: rest /\ (c < 128)%N.
Proof.
  unfold quote_byte. destruct (always_safe b) eqn:E.
  - exists b, []. split; [reflexivity | now apply always_safe_ascii].
  - destruct (b =? 32)%N; do 2 eexists; (split; [reflexivity | lia]).
Qed.

(** An encoded query is empty or begins with an ASCII character. *)
Lemma quote_plus_head (query encoded : pystr) :
  quote_plus query = Returns encoded ->
  encoded = [] \/ exists c rest, encoded = c :: rest /\ (c < 128)%N.
Proof.
  unfold quote_plus. destruct (existsb is_surrogate query); [discriminate|].
  intros H. injection H as <-.
  destruct query as [|c query]; [now left|right].
  cbn [flat_map].
  assert (exists b bs, utf8_encode_char c = b :: bs) as (b & bs & ->).
  { unfold utf8_encode_char.
    destruct (c <? 128)%N; [eauto|].
    destruct (c <? 2048)%N; [eauto|].
    destruct (c <? 65536)%N; eauto. }
  cbn [app flat_map].
  destruct (quote_byte_head b) as (c0 & rest & -> & Hc).
  cbn [app]. eauto.
Qed.

(** C3 (the code as it is): for every query that can be encoded, the one
    GET request of [_search_duckduckgo_html] goes to the fixed URL with
    the literal query, which is never the URL built from the encoded
    query. *)
Theorem ddg_request_ignores_query (query encoded : pystr) (max_results : Z)
        (is_news : bool) (l : log) :
  quote_plus query = Returns encoded ->
  exists rs rest,
    _search_duckduckgo_html lower w query max_results is_news l
    = (Returns rs,
       l ++ Get (u "https://duckduckgo.com/html/?q=미래시스템") [] ddg_headers 10
         :: rest)
    /\ u "https://duckduckgo.com/html/?q=미래시스템" <> ddg_query_url encoded.
Proof.
  intros Hq. unfold _search_duckduckgo_html, try_catch, bind at 1, lift.
  rewrite Hq. unfold bind at 1, http_get, ddg_request_url.
  set (req := Get _ _ _ _).
  assert (Hneq : u "https://duckduckgo.com/html/?q=미래시스템"
                 <> ddg_query_url encoded).
  { unfold ddg_query_url.
    change (u "https://duckduckgo.com/html/?q=미래시스템")
      with (u "https://duckduckgo.com/html/?q=" ++ u "미래시스템").
    intros H. apply app_inv_head in H.
    destruct (quote_plus_head _ Hq) as [-> | (c & rest & -> & Hc)].
    - discriminate H.
    - vm_compute in H. injection H as <- _. vm_compute in Hc. discriminate Hc. }
  destruct (requests_get w l req) as [response|e].
  - unfold bind at 1, raise_for_status.
    destruct ((400 <=? status_code response) && (status_code response <? 600))%Z.
    + unfold raise, ret. exists [], []. now split.
    + unfold ret at 1, extract.
      destruct (extract_loop_log max_results is_news
                  (result_elements lower (soup response) max_results)
                  [] (l ++ [req])) as (rs & suffix & ->).
      exists rs, suffix. split; [|exact Hneq].
      now rewrite <- app_assoc.
  - unfold ret. exists [], []. now split.
Qed.

Lemma serpapi_block_returns (params : list (pystr * pystr))
      (listing_of : serp_json -> option (option serp_listing))
      (with_date : bool) (cap : nat) (results : list result) :
  returns (fun _ => True)
          (serpapi_block w params listing_of with_date cap results).
Proof. unfold serpapi_block. now apply returns_try_catch. Qed.

(** [_search_company_info] never raises; without a search API key its
    results come from the extractor, so their fields are strings. *)
Lemma search_company_info_returns (self : summarizer)
      (company_name : pystr) (company_url : option pystr) :
  returns (fun rs => opt_truthy (serpapi_key self) = false ->
                     Forall textual rs)
          (_search_company_info lower w self company_name company_url).
Proof.
  unfold _search_company_info. cbv zeta.
  assert (Hddg :
    forall results : list result,
      Forall textual results ->
      returns (Forall textual)
        (bind
           (try_catch
              (bind (_search_duckduckgo_html lower w
                       (general_query company_name) 5 false)
                    (fun ddg_results => ret (results ++ ddg_results)))
              (fun _ => ret results))
           (fun results =>
              try_catch
                (bind (_search_duckduckgo_html lower w
                         (news_query company_name) 3 true)
                      (fun news_results => ret (results ++ news_results)))
                (fun _ => ret results)))).
  { intros results Hres.
    apply returns_bind with (P := Forall textual).
    - apply returns_try_catch; [exact Hres|].
      intros l a l' H. apply bind_returns_inv in H.
      destruct H as (ddg & l1 & E & H). injection H as <- _.
      apply Forall_app. split; [exact Hres|].
      eapply Forall_impl;
        [|exact (@returns_inv _ _ _ _ _ _
                   (search_duckduckgo_html_returns lower w _ _ _) E)].
      intros r. apply kept_textual.
    - intros results1 Hres1.
      apply returns_try_catch; [exact Hres1|].
      intros l a l' H. apply bind_returns_inv in H.
      destruct H as (ddg & l1 & E & H). injection H as <- _.
      apply Forall_app. split; [exact Hres1|].
      eapply Forall_impl;
        [|exact (@returns_inv _ _ _ _ _ _
                   (search_duckduckgo_html_returns lower w _ _ _) E)].
      intros r. apply kept_textual. }
  destruct (serpapi_key self) as [key|]; cbn [opt_truthy].
  - destruct (nonempty key) eqn:Ek; cbn [negb].
    + apply returns_bind with (P := fun _ => True).
      * apply returns_bind with (P := fun _ => True);
          [apply serpapi_block_returns|].
        intros; apply serpapi_block_returns.
      * intros rs _. apply returns_ret. discriminate.
    + apply returns_bind with (P := fun rs => rs = []);
        [now apply returns_ret|].
      intros rs ->.
      apply returns_weaken with (P := Forall textual); [auto|].
      now apply Hddg.
  - apply returns_bind with (P := fun rs => rs = []);
      [now apply returns_ret|].
    intros rs ->.
    apply returns_weaken with (P := Forall textual); [auto|].
    now apply Hddg.
Qed.

Lemma fetch_website_content_returns (url : pystr) :
  returns (fun _ => True) (_fetch_website_content w url).
Proof. unfold _fetch_website_content. now apply returns_try_catch. Qed.

Lemma ask_model_returns (system prompt : pystr) (max_tokens : Z)
      (section_name : pystr) :
  returns (fun _ => True) (ask_model w system prompt max_tokens section_name).
Proof.
  intros l. pose proof (ask_model_run w system prompt max_tokens section_name l)
    as H. cbv zeta in H. rewrite H. eauto.
Qed.

Lemma generate_overview_returns (company_name : pystr) (rs : list result)
      (website_content : option pystr) :
  returns (fun _ => True)
          (_generate_overview w company_name rs website_content).
Proof. unfold _generate_overview. cbv zeta. apply ask_model_returns. Qed.

Lemma generate_talent_profile_returns (company_name : pystr)
      (rs : list result) (website_content : option pystr) :
  Forall textual rs ->
  returns (fun _ => True)
          (_generate_talent_profile lower w company_name rs website_content).
Proof.
  intros H. unfold _generate_talent_profile, talent_results_generate. cbv zeta.
  rewrite (keyword_filter_textual lower talent_keywords_generate H).
  apply returns_bind with (P := fun _ => True); [now apply returns_lift|].
  intros kept_rs _. apply ask_model_returns.
Qed.

Lemma recent_vision_context_returns (company_name : pystr)
      (rs : list result) :
  Forall textual rs ->
  exists context, recent_vision_context lower company_name rs = Returns context.
Proof.
  intros H. unfold recent_vision_context, vision_results.
  rewrite (news_results_textual lower H),
    (keyword_filter_textual lower vision_keywords H).
  cbn [obind]. destruct (nonempty _); cbn [obind]; eauto.
Qed.

Lemma generate_recent_vision_returns (company_name : pystr)
      (rs : list result) :
  Forall textual rs ->
  returns (fun _ => True) (_generate_recent_vision lower w company_name rs).
Proof.
  intros H. unfold _generate_recent_vision.
  destruct (recent_vision_context_returns company_name H) as [context ->].
  apply returns_bind with (P := fun _ => True); [now apply returns_lift|].
  intros c _. cbv zeta. apply ask_model_returns.
Qed.

Lemma format_talent_profile_returns (company_name : pystr)
      (rs : list result) (website_content : option pystr) :
  Forall textual rs ->
  exists text,
    _format_search_results_as_talent_profile lower company_name rs
                                            website_content
    = Returns text.
Proof.
  intros H. unfold _format_search_results_as_talent_profile, talent_results.
  cbv zeta. rewrite (keyword_filter_textual lower talent_keywords H).
  cbn [obind]. eauto.
Qed.

Lemma format_vision_returns (company_name : pystr) (rs : list result) :
  Forall textual rs ->
  exists text,
    _format_search_results_as_vision lower company_name rs = Returns text.
Proof.
  intros H. unfold _format_search_results_as_vision, vision_results.
  rewrite (news_results_textual lower H),
    (keyword_filter_textual lower vision_keywords H).
  cbn [obind]. destruct (nonempty _); cbn [obind]; [eauto|].
  destruct (nonempty _); eauto.
Qed.

(** C1 (amended): without a search API key, or whenever every title and
    snippet the search step collected is a string, [summarize_company]
    returns the dict with exactly the keys overview, talent_profile and
    recent_vision, each holding a string; no exception of the search, the
    homepage fetch or the model call reaches the caller. *)
Theorem summarize_company_returns_three_fields (self : summarizer)
        (company_name : pystr) (company_url : option pystr) (l : log) :
  (opt_truthy (serpapi_key self) = false
   \/ forall rs l1,
       _search_company_info lower w self company_name company_url l
       = (Returns rs, l1) -> Forall textual rs) ->
  exists overview talent_profile recent_vision l',
    summarize_company lower w self company_name company_url l
    = (Returns [ (u "overview", Some overview);
                 (u "talent_profile", Some talent_profile);
                 (u "recent_vision", Some recent_vision) ], l').
Proof.
  intros Hyp. unfold summarize_company.
  destruct (search_company_info_returns self company_name company_url l)
    as (rs & l1 & Esearch & Hddg).
  assert (Htext : Forall textual rs).
  { destruct Hyp as [Hkey | Hall]; [auto | eauto]. }
  unfold bind at 1. rewrite Esearch.
  assert (Hfetch : returns (fun _ => True)
            match company_url with
            | Some url => if nonempty url then _fetch_website_content w url
                          else ret None
            | None => ret None
            end).
  { destruct company_url as [url|]; [destruct (nonempty url)|];
      try now apply returns_ret.
    apply fetch_website_content_returns. }
  destruct (Hfetch l1) as (website_content & l2 & Efetch & _).
  unfold bind at 1. rewrite Efetch.
  destruct (client self).
  - destruct (generate_overview_returns company_name rs website_content l2)
      as (o & l3 & Eo & _).
    destruct (generate_talent_profile_returns company_name website_content
                                              Htext l3)
      as (t & l4 & Et & _).
    destruct (generate_recent_vision_returns company_name Htext l4)
      as (v & l5 & Ev & _).
    exists o, t, v, l5. unfold bind. now rewrite Eo, Et, Ev.
  - destruct (format_talent_profile_returns company_name website_content Htext)
      as (t & Et).
    destruct (format_vision_returns company_name Htext) as (v & Ev).
    exists (_format_search_results_as_overview company_name rs website_content),
      t, v, l2.
    unfold bind, lift. now rewrite Et, Ev.
Qed.

End Pipeline.

(* ================================================================= *)
(** ** The statements at concrete inputs *)

(** C1 fails as stated: with a search API key, an organic hit whose title
    is JSON [null] makes the talent filter raise, and the exception leaves
    [summarize_company]. *)
Lemma summarize_company_raises_on_null_title :
  fst (summarize_company lower_ascii null_title_api with_serpapi
                         (u "Acme") None [])
  = Raises (AttributeError (u "'NoneType' object has no attribute 'lower'")).
Proof. vm_compute. reflexivity. Qed.

(** C1 (amended) without keys and without network. *)
Lemma summarize_company_returns_three_fields_witness :
  opt_truthy (serpapi_key no_keys) = false
  /\ exists overview talent_profile recent_vision l',
      summarize_company lower_ascii offline no_keys (u "Acme") None []
      = (Returns [ (u "overview", Some overview);
                   (u "talent_profile", Some talent_profile);
                   (u "recent_vision", Some recent_vision) ], l').
Proof.
  split; [reflexivity|].
  apply (summarize_company_returns_three_fields
           lower_ascii offline no_keys (u "Acme") None []).
  left. reflexivity.
Defined.

(** C2 fails as stated: [summarize_company] called with the empty name is
    not rejected; it returns the three sections after two GET requests. *)
Lemma summarize_company_accepts_empty_name :
  exists fields,
    summarize_company lower_ascii offline no_keys [] None []
    = (Returns fields,
       [ Get (u "https://duckduckgo.com/html/?q=미래시스템") [] ddg_headers 10;
         Get (u "https://duckduckgo.com/html/?q=미래시스템") [] ddg_headers 10 ]).
Proof. eexists. vm_compute. reflexivity. Qed.

(** C2 (amended) for a name line of three spaces. *)
Lemma main_rejects_empty_name_witness :
  strip (u "   ") = []
  /\ main lower_ascii offline
          {| OPENAI_API_KEY := None; SERPAPI_KEY := None |}
          (u "   ") (u "https://a.example/") []
     = (Returns None, []).
Proof.
  split; [reflexivity|].
  apply (main_rejects_empty_name lower_ascii offline
           {| OPENAI_API_KEY := None; SERPAPI_KEY := None |}
           (u "   ") (u "https://a.example/") []).
  reflexivity.
Defined.

(** C3 for the general query of the company name Acme. *)
Lemma ddg_request_ignores_query_witness :
  quote_plus (general_query (u "Acme"))
  = Returns (u "Acme+%ED%9A%8C%EC%82%AC+%EC%86%8C%EA%B0%9C+%EC%9D%B8%EC%9E%AC%EC%83%81")
  /\ exists rs rest,
      _search_duckduckgo_html lower_ascii offline (general_query (u "Acme"))
                             5 false []
      = (Returns rs,
         [] ++ Get (u "https://duckduckgo.com/html/?q=미래시스템") []
                   ddg_headers 10 :: rest)
      /\ u "https://duckduckgo.com/html/?q=미래시스템"
         <> ddg_query_url
              (u "Acme+%ED%9A%8C%EC%82%AC+%EC%86%8C%EA%B0%9C+%EC%9D%B8%EC%9E%AC%EC%83%81").
Proof.
  split; [vm_compute; reflexivity|].
  apply (ddg_request_ignores_query lower_ascii offline
           (general_query (u "Acme"))
           (encoded := u "Acme+%ED%9A%8C%EC%82%AC+%EC%86%8C%EA%B0%9C+%EC%9D%B8%EC%9E%AC%EC%83%81")
           5 false []).
  vm_compute. reflexivity.
Defined.

(** C4 fails as stated: when the HEAD request fails, the kept link is the
    wrapped relative link, neither empty nor absolute. *)
Lemma unresolved_link_stays_relative :
  fst (extract lower_ascii offline (page [wrapped_hit]) 5 false [])
  = Returns [ {| title := VStr (u "T"); snippet := VStr [];
                 link := VStr (u "/l/?uddg=x"); date := None |} ]
  /\ u "/l/?uddg=x" <> []
  /\ is_absolute (u "/l/?uddg=x") = false.
Proof. vm_compute. repeat split. discriminate. Qed.

Lemma absolute_redirects_redirecting : absolute_redirects redirecting.
Proof.
  intros l req final_url H _. injection H as <-. reflexivity.
Qed.

(** C4 (amended) for a page with a wrapped and a plain hit, where HEAD
    requests are redirected. *)
Lemma kept_links_absolute_or_wrapped_witness :
  absolute_redirects redirecting
  /\ exists rs l',
      extract lower_ascii redirecting (page [wrapped_hit; plain_hit]) 5 false []
      = (Returns rs, l')
      /\ Forall (fun r => exists k, link r = VStr k
                          /\ (is_absolute k = true \/ is_wrapped k = true)) rs.
Proof.
  split; [exact absolute_redirects_redirecting|].
  destruct (kept_links_absolute_or_wrapped lower_ascii
              (page [wrapped_hit; plain_hit]) 5 false []
              absolute_redirects_redirecting)
    as (rs & l' & E & H & _).
  exists rs, l'. split; assumption.
Defined.





Lemma textual_examples :
  Forall textual [hiring_result; news_result; other_result].
Proof. repeat constructor; unfold textual; simpl; eauto. Qed.

(** C7 for three results. *)
Lemma talent_classification_filters_witness :
  Forall textual [hiring_result; news_result; other_result]
  /\ exists keep : result -> bool,
      (forall r, keep r = true <-> has_keyword lower_ascii talent_keywords r)
      /\ talent_results lower_ascii [hiring_result; news_result; other_result]
         = Returns (filter keep [hiring_result; news_result; other_result])
      /\ talent_results_generate lower_ascii
                                 [hiring_result; news_result; other_result]
         = Returns (filter keep [hiring_result; news_result; other_result]).
Proof.
  split; [exact textual_examples|].
  apply (talent_classification_filters lower_ascii textual_examples).
Defined.


(** C9 for a model that answers with error 429. *)
Lemma model_error_becomes_section_text_witness :
  Forall textual [hiring_result; news_result; other_result]
  /\ exists req text,
      _generate_talent_profile lower_ascii quota_world (u "Acme")
                               [hiring_result; news_result; other_result]
                               None []
      = (Returns text, [req])
      /\ text = quota_message (u "인재상")
      /\ occurs_in (u "https://platform.openai.com/account/usage") text.
Proof.
  split; [exact textual_examples|].
  destruct (proj2 (model_error_becomes_section_text
                     lower_ascii quota_world (u "Acme")
                     [hiring_result; news_result; other_result] None [])
                  textual_examples)
    as ((req & text & E & H) & _).
  exists req, text. split; [exact E|].
  destruct (H (Failure (u "Error code: 429 - insufficient_quota")) eq_refl)
    as (Hq & _).
  assert (Q : quota_marked
                (str_exn (Failure (u "Error code: 429 - insufficient_quota")))).
  { right. apply str_in_spec. vm_compute. reflexivity. }
  destruct (Hq Q) as (H1 & H2 & _). split; assumption.
Defined.

(** C10 for an error text with both markers. *)
Lemma quota_takes_precedence_witness :
  quota_marked (str_exn (Failure (u "429 invalid_api_key")))
  /\ auth_marked (str_exn (Failure (u "429 invalid_api_key")))
  /\ _format_openai_error (Failure (u "429 invalid_api_key")) (u "인재상")
     = quota_message (u "인재상")
  /\ _format_openai_error (Failure (u "429 invalid_api_key")) (u "인재상")
     <> auth_message (u "인재상").
Proof.
  assert (Q : quota_marked (str_exn (Failure (u "429 invalid_api_key")))).
  { right. apply str_in_spec. vm_compute. reflexivity. }
  assert (A : auth_marked (str_exn (Failure (u "429 invalid_api_key")))).
  { left. apply str_in_spec. vm_compute. reflexivity. }
  split; [exact Q|]. split; [exact A|].
  apply (quota_takes_precedence (Failure (u "429 invalid_api_key"))
                                (u "인재상") Q A).
Defined.

(* ================================================================= *)
(** ** Further properties: the homepage reader *)

Lemma node_induction (P : node -> Prop) :
  (forall s, P (Text s)) ->
  (forall nm cls h cs, Forall P cs -> P (Tag nm cls h cs)) ->
  forall n, P n.
Proof.
  intros HT HG. fix IH 1. intros [s | nm cls h cs]; [apply HT|].
  apply HG. induction cs as [|c cs IHcs]; constructor; [apply IH | exact IHcs].
Qed.

(** X1: a homepage fetch never raises and issues exactly one GET request,
    to the given URL; a failing request or an error status gives [None],
    any other answer gives the visible text of the page cut to 5000
    characters. *)
Theorem fetch_website_content_bounded (w : world) (url : pystr) (l : log) :
  exists content,
    _fetch_website_content w url l = (Returns content, l ++ [website_get url])
    /\ (get_fails (requests_get w l (website_get url)) -> content = None)
    /\ (forall r,
           requests_get w l (website_get url) = Returns r ->
           ~ (400 <= status_code r < 600)%Z ->
           exists text,
             content = Some text
             /\ text = firstn 5000
                         (get_text_sep (u " ")
                            (decompose_all
                               [u "script"; u "style"; u "nav"; u "footer";
                                u "header"] (soup r)))
             /\ length text <= 5000).
Proof.
  unfold _fetch_website_content, try_catch, bind, http_get, raise_for_status,
    get_fails.
  change (Get url [] _ 10) with (website_get url).
  destruct (requests_get w l (website_get url)) as [r|e].
  - destruct ((400 <=? status_code r) && (status_code r <? 600))%Z eqn:Est.
    + apply andb_true_iff in Est. destruct Est as [E1 E2].
      apply Z.leb_le in E1. apply Z.ltb_lt in E2.
      unfold raise, ret. exists None. split; [reflexivity|].
      split; [reflexivity|].
      intros r' Hr' Hst. injection Hr' as <-. lia.
    + unfold ret. eexists. split; [reflexivity|]. split.
      * intros [E1 E2]. apply Z.leb_le in E1. apply Z.ltb_lt in E2.
        rewrite E1, E2 in Est. discriminate Est.
      * intros r' Hr' _. injection Hr' as <-.
        eexists. split; [reflexivity|].
        match goal with
        | |- context [if ?c then _ else ?t] =>
          destruct (Nat.ltb_spec 5000 (length t)) as [Hlen|Hlen]
        end.
        -- split; [reflexivity | rewrite length_firstn; lia].
        -- split; [symmetry; apply firstn_all2; lia | lia].
  - unfold ret. exists None. split; [reflexivity|]. split; [reflexivity|].
    intros r H. discriminate H.
Qed.

(** X2: after [for tag in soup(names): tag.decompose()] no tag with one of
    the names is left anywhere below the root, and decomposing again
    changes nothing. *)
Theorem decompose_all_removes (names : list pystr) (n : node) :
  Forall (not_named names) (descendants (decompose_all names n))
  /\ decompose_all names (decompose_all names n) = decompose_all names n.
Proof.
  induction n as [s | nm cls h cs IH] using node_induction.
  - split; [constructor | reflexivity].
  - cbn [decompose_all descendants]. split.
    + induction IH as [|c cs [Hc _] _ IHcs]; cbn [flat_map]; [constructor|].
      destruct c as [s | cn ccls ch ccs].
      * cbn [app flat_map descendants]. constructor; [exact I | exact IHcs].
      * destruct (existsb (str_eqb cn) names) eqn:E; [exact IHcs|].
        cbn [app flat_map]. constructor.
        { cbn [decompose_all not_named]. exact E. }
        apply Forall_app. split; [exact Hc | exact IHcs].
    + f_equal.
      induction IH as [|c cs [_ Hc] _ IHcs]; cbn [flat_map]; [reflexivity|].
      destruct c as [s | cn ccls ch ccs].
      * cbn [app flat_map]. now rewrite IHcs.
      * destruct (existsb (str_eqb cn) names) eqn:E; [exact IHcs|].
        cbn [app flat_map]. rewrite <- IHcs at 2.
        change (decompose_all names (Tag cn ccls ch ccs))
          with (Tag cn ccls ch
                    (flat_map (fun c =>
                       match c with
                       | Tag cn _ _ _ =>
                         if existsb (str_eqb cn) names then []
                         else [decompose_all names c]
                       | Text _ => [c]
                       end) ccs)) at 1.
        cbv beta iota. rewrite E.
        cbn [app]. f_equal. exact Hc.
Qed.

(* ================================================================= *)
(** ** Further properties: the requests of a search *)

Section SearchRequests.

Variable lower : pystr -> pystr.
Variable w : world.

(** Resolving a link asks the network only for a wrapped link. *)
Lemma resolve_link_requests (href : pystr) (l : log) :
  exists k,
    resolve_link w href l
    = (Returns k,
       l ++ if is_wrapped href then [head_request href] else []).
Proof.
  unfold resolve_link. rewrite wrapped_kh.
  destruct (is_wrapped href).
  - unfold try_catch, bind, http_head, ret, head_request.
    destruct (requests_head w l _) as [final|e]; [destruct (nonempty final)|];
      eauto.
  - destruct (negb (startswith href (u "http"))); unfold ret;
      eexists; now rewrite app_nil_r.
Qed.

Lemma extract_loop_requests (max_results : Z) (is_news : bool)
      (elements : list node) :
  forall (results : list result) (l : log),
    (Z.of_nat (length results + length elements) <= max_results)%Z ->
    exists rs,
      extract_loop w max_results is_news elements results l
      = (Returns rs, l ++ map head_request (wrapped_links elements)).
Proof.
  induction elements as [|element rest IH]; intros results l Hb;
    cbn [extract_loop wrapped_links flat_map].
  - exists results. cbn [map]. now rewrite app_nil_r.
  - fold (wrapped_links rest).
    destruct (title_elem element) as [te|].
    2:{ cbn [app]. apply IH. simpl in Hb. lia. }
    unfold bind at 1.
    destruct (resolve_link_requests (get_href te) l) as (k & ->).
    rewrite map_app, app_assoc.
    replace (map head_request
                 (if is_wrapped (get_href te) then [get_href te] else []))
      with (if is_wrapped (get_href te)
            then [head_request (get_href te)] else [])
      by now destruct (is_wrapped (get_href te)).
    set (l1 := l ++ _).
    destruct (nonempty (get_text te)).
    + match goal with
      | |- context [if ?c then _ else _] => destruct c eqn:Ecap
      end.
      * apply Z.leb_le in Ecap. rewrite length_app in Ecap.
        simpl in Ecap, Hb.
        destruct rest; [|simpl in Hb; lia].
        unfold ret. eexists. cbn [wrapped_links flat_map map].
        now rewrite app_nil_r.
      * apply IH. rewrite length_app. simpl in *. lia.
    + apply IH. simpl in Hb. lia.
Qed.

(** X3: extraction from a parsed page issues only HEAD requests, exactly
    one for every candidate whose title link is a redirect wrapper, to the
    site followed by that link, in the order of the candidates; so at most
    [max_results] of them. *)
Theorem extract_requests (soup : node) (max_results : Z) (is_news : bool)
        (l : log) :
  (0 <= max_results)%Z ->
  exists rs,
    extract lower w soup max_results is_news l
    = (Returns rs,
       l ++ map head_request
                (wrapped_links (result_elements lower soup max_results)))
    /\ (Z.of_nat (length (wrapped_links
                            (result_elements lower soup max_results)))
        <= max_results)%Z.
Proof.
  intros Hn. unfold extract.
  destruct (@extract_loop_requests max_results is_news
              (result_elements lower soup max_results) [] l) as (rs & E).
  { simpl. now apply result_elements_length. }
  exists rs. split; [exact E|].
  pose proof (result_elements_length lower soup Hn) as Hlen.
  assert (H : forall es, length (wrapped_links es) <= length es).
  { induction es as [|e es IHes]; cbn [wrapped_links flat_map]; [simpl; lia|].
    fold (wrapped_links es). rewrite length_app.
    destruct (title_elem e) as [te|]; [destruct (is_wrapped (get_href te))|];
      simpl; lia. }
  specialize (H (result_elements lower soup max_results)). lia.
Qed.

(** X4: a free search never raises and returns at most [max_results]
    results, with the date key exactly when it is a news search; its first
    request is the GET of the results page, and when that request fails or
    is answered with an error status the result is empty and nothing else
    is requested. *)
Theorem ddg_search_bounded (query : pystr) (max_results : Z) (is_news : bool)
        (l : log) :
  (0 <= max_results)%Z ->
  exists rs suffix,
    _search_duckduckgo_html lower w query max_results is_news l
    = (Returns rs, l ++ suffix)
    /\ (Z.of_nat (length rs) <= max_results)%Z
    /\ Forall (dated_as is_news) rs
    /\ (get_fails (requests_get w l ddg_get) ->
        rs = [] /\ (suffix = [] \/ suffix = [ddg_get])).
Proof.
  intros Hn. unfold _search_duckduckgo_html, try_catch, bind at 1, lift.
  destruct (quote_plus query) as [encoded|e].
  2:{ exists [], []. unfold ret. rewrite app_nil_r.
      repeat split; auto; simpl; lia. }
  unfold bind at 1, http_get, ddg_request_url. fold ddg_get.
  unfold get_fails.
  destruct (requests_get w l ddg_get) as [response|e].
  2:{ exists [], [ddg_get]. unfold ret. repeat split; auto; simpl; lia. }
  unfold bind at 1, raise_for_status.
  destruct ((400 <=? status_code response) && (status_code response <? 600))%Z
    eqn:Est.
  { exists [], [ddg_get]. unfold raise, ret. repeat split; auto; simpl; lia. }
  unfold ret at 1.
  destruct (@extract_spec lower w (fun _ => True) (soup response) max_results
                          is_news (l ++ [ddg_get])
                          (resolve_link_returns w))
    as (rs & l' & E & Hk & Hlen).
  destruct (extract_requests (soup response) is_news (l ++ [ddg_get]) Hn)
    as (rs' & E' & _).
  rewrite E in E'. injection E' as <- ->. rewrite E.
  exists rs, ([ddg_get] ++ map head_request
                           (wrapped_links
                              (result_elements lower (soup response)
                                               max_results))).
  rewrite app_assoc. split; [reflexivity|]. split; [|split].
  - rewrite (Hlen Hn).
    pose proof (filter_length_le has_title
                  (result_elements lower (soup response) max_results)).
    pose proof (result_elements_length lower (soup response) Hn). lia.
  - eapply Forall_impl; [|exact Hk].
    intros r (t & s & k & _ & _ & _ & _ & _ & Hd). exact Hd.
  - intros [E1 E2]. apply Z.leb_le in E1. apply Z.ltb_lt in E2.
    rewrite E1, E2 in Est. discriminate Est.
Qed.

End SearchRequests.

(* ================================================================= *)
(** ** Further properties: the search aggregator *)

Section Aggregator.

Variable lower : pystr -> pystr.
Variable w : world.

(** X5: without a search API key the aggregator runs the general search
    and then the news search, whatever the first one gave, and returns the
    general results followed by the news results, nothing merged or
    dropped: at most 5 without a date, then at most 3 with one. *)
Theorem free_scrape_concatenates (self : summarizer) (company_name : pystr)
        (company_url : option pystr) (l : log) :
  opt_truthy (serpapi_key self) = false ->
  exists general l1 news l2,
    _search_duckduckgo_html lower w (general_query company_name) 5 false l
    = (Returns general, l1)
    /\ _search_duckduckgo_html lower w (news_query company_name) 3 true l1
       = (Returns news, l2)
    /\ _search_company_info lower w self company_name company_url l
       = (Returns (general ++ news), l2)
    /\ length general <= 5 /\ Forall (dated_as false) general
    /\ length news <= 3 /\ Forall (dated_as true) news.
Proof.
  intros Hkey.
  destruct (ddg_search_bounded lower w (general_query company_name) false l
                               (max_results := 5) ltac:(lia))
    as (general & s1 & E1 & Hl1 & Hd1 & _).
  destruct (ddg_search_bounded lower w (news_query company_name) true
                               (l ++ s1) (max_results := 3) ltac:(lia))
    as (news & s2 & E2 & Hl2 & Hd2 & _).
  exists general, (l ++ s1), news, ((l ++ s1) ++ s2).
  split; [exact E1|]. split; [exact E2|].
  split; [|repeat split; trivial; lia].
  unfold _search_company_info. cbv zeta.
  assert (Hfirst :
    (match serpapi_key self with
     | Some key =>
       if nonempty key then
         bind (serpapi_block w
                 [ (u "q", general_query company_name); (u "api_key", key);
                   (u "engine", u "google"); (u "hl", u "ko");
                   (u "gl", u "kr") ] organic_of false 5 [])
              (fun results =>
                 serpapi_block w
                   [ (u "q", news_query company_name); (u "api_key", key);
                     (u "engine", u "google"); (u "tbm", u "nws");
                     (u "hl", u "ko"); (u "gl", u "kr") ]
                   news_of true 3 results)
       else ret []
     | None => ret []
     end) = ret (A := list result) []).
  { destruct (serpapi_key self) as [key|]; [|reflexivity].
    cbn [opt_truthy] in Hkey. now rewrite Hkey. }
  rewrite Hfirst, Hkey. cbn [negb].
  unfold bind, ret, try_catch. rewrite E1, E2. reflexivity.
Qed.


Lemma dict_get_missing (fields : list (pystr * pyval)) (key : pystr)
      (default : pyval) :
  (forall v, ~ In (key, v) fields) -> dict_get fields key default = default.
Proof.
  induction fields as [|[k v] fields IH]; intros H; simpl; [reflexivity|].
  unfold str_eqb. destruct (list_eq_dec N.eq_dec k key) as [->|_].
  - exfalso. apply (H v). now left.
  - apply IH. intros v' Hin. apply (H v'). now right.
Qed.

(** X6: the objects of a listing become results one by one, in order; at
    the first element that is not an object the loop stops, and the
    results of the objects before it stay; a title, snippet or link that
    the object lacks is the empty string. *)
Theorem append_items_keeps_prefix (with_date : bool)
        (objects : list (list (pystr * pyval))) (later : list serp_item)
        (results : list result) :
  append_items with_date (map ItemDict objects) results
  = results ++ map (result_of_fields with_date) objects
  /\ append_items with_date (map ItemDict objects ++ ItemOther :: later) results
     = results ++ map (result_of_fields with_date) objects
  /\ (forall fields,
         ((forall v, ~ In (u "title", v) fields) ->
          title (result_of_fields with_date fields) = VStr [])
         /\ ((forall v, ~ In (u "snippet", v) fields) ->
             snippet (result_of_fields with_date fields) = VStr [])
         /\ ((forall v, ~ In (u "link", v) fields) ->
             link (result_of_fields with_date fields) = VStr [])).
Proof.
  split; [|split].
  - revert results. induction objects as [|fields objects IH]; intros results.
    + simpl. now rewrite app_nil_r.
    + cbn [map append_items]. fold (result_of_fields with_date fields).
      rewrite IH, <- app_assoc. reflexivity.
  - revert results. induction objects as [|fields objects IH]; intros results.
    + simpl. now rewrite app_nil_r.
    + cbn [map app append_items]. fold (result_of_fields with_date fields).
      rewrite IH, <- app_assoc. reflexivity.
  - intros fields. unfold result_of_fields. cbn [title snippet link].
    repeat split; apply dict_get_missing.
Qed.



End Aggregator.

(* ================================================================= *)
(** ** Further properties: the sections and the front ends *)

Section Formatting.

Variable lower : pystr -> pystr.
Variable w : world.

(** X8: an API key set to the empty string counts as no key: the run is
    the one of a summarizer built without keys (free search, no model). *)
Theorem empty_keys_count_as_absent (company_name : pystr)
        (company_url : option pystr) (l : log) :
  summarize_company lower w
    (init w {| OPENAI_API_KEY := Some []; SERPAPI_KEY := Some [] |})
    company_name company_url l
  = summarize_company lower w
      (init w {| OPENAI_API_KEY := None; SERPAPI_KEY := None |})
      company_name company_url l.
Proof. reflexivity. Qed.

Lemma nonempty_firstn {A} (n : nat) (xs : list A) :
  nonempty (firstn (S n) xs) = nonempty xs.
Proof. now destruct xs. Qed.

Lemma firstn_idem {A} (n : nat) (xs : list A) :
  firstn n (firstn n xs) = firstn n xs.
Proof. rewrite firstn_firstn. now rewrite Nat.min_id. Qed.

(** X9: the overview text without a model shows at most the first five
    results: it is the text for the first five alone. *)
Theorem overview_shows_first_five (company_name : pystr) (rs : list result)
        (website_content : option pystr) :
  _format_search_results_as_overview company_name rs website_content
  = _format_search_results_as_overview company_name (firstn 5 rs)
                                       website_content.
Proof.
  unfold _format_search_results_as_overview. cbv zeta.
  now rewrite nonempty_firstn, firstn_idem.
Qed.

(** X10: the overview request to the model is built from the first five
    results and the first 2000 characters of the homepage text only. *)
Theorem overview_request_is_capped (company_name : pystr) (rs : list result)
        (website_content : option pystr) (l : log) :
  _generate_overview w company_name rs website_content l
  = _generate_overview w company_name (firstn 5 rs)
                       (option_map (firstn 2000) website_content) l.
Proof.
  unfold _generate_overview. cbv zeta.
  rewrite nonempty_firstn, firstn_idem.
  destruct website_content as [c|]; cbn [option_map]; [|reflexivity].
  now rewrite nonempty_firstn, firstn_idem.
Qed.

Lemma filter_fixed {A} (p : A -> bool) (xs : list A) :
  Forall (fun x => p x = true) xs -> filter p xs = xs.
Proof.
  induction 1 as [|x xs Hx _ IH]; simpl; [reflexivity|]. now rewrite Hx, IH.
Qed.

Lemma filter_satisfies {A} (p : A -> bool) (xs : list A) :
  Forall (fun x => p x = true) (filter p xs).
Proof.
  induction xs as [|x xs IH]; simpl; [constructor|].
  destruct (p x) eqn:E; [constructor|]; assumption.
Qed.

Lemma Forall_firstn {A} (P : A -> Prop) (n : nat) (xs : list A) :
  Forall P xs -> Forall P (firstn n xs).
Proof.
  intros H. revert n. induction H as [|x xs Hx _ IH]; intros [|n]; simpl;
    constructor; auto.
Qed.

Lemma Forall_filter {A} (P : A -> Prop) (p : A -> bool) (xs : list A) :
  Forall P xs -> Forall P (filter p xs).
Proof.
  induction 1 as [|x xs Hx _ IH]; simpl; [constructor|].
  destruct (p x); [constructor|]; assumption.
Qed.

(** X11: on results whose title and snippet are strings, the talent text
    without a model depends on the results only through the first five
    that have a talent keyword. *)
Theorem talent_text_uses_first_five_matches (company_name : pystr)
        (rs : list result) (website_content : option pystr) :
  Forall textual rs ->
  exists keep : result -> bool,
    (forall r, keep r = true <-> has_keyword lower talent_keywords r)
    /\ exists text,
        _format_search_results_as_talent_profile lower company_name rs
                                                 website_content
        = Returns text
        /\ _format_search_results_as_talent_profile
             lower company_name (firstn 5 (filter keep rs)) website_content
           = Returns text.
Proof.
  intros H. exists (mentions lower talent_keywords).
  split; [intros r; apply mentions_spec|].
  assert (H5 : Forall textual
                 (firstn 5 (filter (mentions lower talent_keywords) rs))).
  { now apply Forall_firstn, Forall_filter. }
  unfold _format_search_results_as_talent_profile, talent_results. cbv zeta.
  rewrite (keyword_filter_textual lower talent_keywords H),
    (keyword_filter_textual lower talent_keywords H5).
  cbn [obind].
  rewrite (filter_fixed (mentions lower talent_keywords)
             (Forall_firstn 5 (filter_satisfies _ rs))).
  rewrite nonempty_firstn, firstn_idem. eauto.
Qed.

End Formatting.

(* ================================================================= *)
(** ** Further properties: what a run requests *)

Lemma appends_ret {A} (R : request -> Prop) (a : A) : appends R (ret a).
Proof. intros l. exists (Returns a), []. now rewrite app_nil_r. Qed.

Lemma appends_raise {A} (R : request -> Prop) (e : exn) :
  appends R (raise (A := A) e).
Proof. intros l. exists (Raises e), []. now rewrite app_nil_r. Qed.

Lemma appends_lift {A} (R : request -> Prop) (o : outcome A) :
  appends R (lift o).
Proof. intros l. exists o, []. now rewrite app_nil_r. Qed.

Lemma appends_bind {A B} (R : request -> Prop) (m : M A) (k : A -> M B) :
  appends R m -> (forall a, appends R (k a)) -> appends R (bind m k).
Proof.
  intros Hm Hk l. destruct (Hm l) as (o & s1 & E & H1). unfold bind.
  rewrite E. destruct o as [a|e].
  - destruct (Hk a (l ++ s1)) as (o2 & s2 & E2 & H2). rewrite E2.
    exists o2, (s1 ++ s2). rewrite app_assoc. split; [reflexivity|].
    now apply Forall_app.
  - now exists (Raises e), s1.
Qed.

Lemma appends_try_catch {A} (R : request -> Prop) (m : M A) (h : exn -> M A) :
  appends R m -> (forall e, appends R (h e)) -> appends R (try_catch m h).
Proof.
  intros Hm Hh l. destruct (Hm l) as (o & s1 & E & H1). unfold try_catch.
  rewrite E. destruct o as [a|e].
  - now exists (Returns a), s1.
  - destruct (Hh e (l ++ s1)) as (o2 & s2 & E2 & H2). rewrite E2.
    exists o2, (s1 ++ s2). rewrite app_assoc. split; [reflexivity|].
    now apply Forall_app.
Qed.

Lemma appends_http_get (R : request -> Prop) (w : world) (req : request) :
  R req -> appends R (http_get w req).
Proof.
  intros H l. unfold http_get. do 2 eexists. split; [reflexivity|].
  now repeat constructor.
Qed.

Lemma appends_http_head (R : request -> Prop) (w : world) (req : request) :
  R req -> appends R (http_head w req).
Proof.
  intros H l. unfold http_head. do 2 eexists. split; [reflexivity|].
  now repeat constructor.
Qed.

Section Requests.

Variable lower : pystr -> pystr.
Variable w : world.

Let no_chat (r : request) : Prop := is_chat r = false.

Lemma appends_if {A} (R : request -> Prop) (b : bool) (m1 m2 : M A) :
  appends R m1 -> appends R m2 -> appends R (if b then m1 else m2).
Proof. now destruct b. Qed.

Lemma resolve_link_no_chat (href : pystr) :
  appends no_chat (resolve_link w href).
Proof.
  unfold resolve_link. apply appends_if; [|apply appends_if].
  - apply appends_try_catch; [|intros; apply appends_ret].
    apply appends_bind; [now apply appends_http_head|].
    intros k. apply appends_if; apply appends_ret.
  - apply appends_ret.
  - apply appends_ret.
Qed.

Lemma extract_loop_no_chat (max_results : Z) (is_news : bool)
      (elements : list node) :
  forall results,
    appends no_chat (extract_loop w max_results is_news elements results).
Proof.
  induction elements as [|element rest IH]; intros results;
    cbn [extract_loop].
  - apply appends_ret.
  - destruct (title_elem element) as [te|]; [|apply IH].
    apply appends_bind; [apply resolve_link_no_chat|].
    intros k. apply appends_if; [|apply IH].
    apply appends_if; [apply appends_ret | apply IH].
Qed.

Lemma search_duckduckgo_html_no_chat (query : pystr) (max_results : Z)
      (is_news : bool) :
  appends no_chat (_search_duckduckgo_html lower w query max_results is_news).
Proof.
  unfold _search_duckduckgo_html.
  apply appends_try_catch; [|intros; apply appends_ret].
  apply appends_bind; [apply appends_lift|]. intros encoded.
  apply appends_bind; [now apply appends_http_get|]. intros response.
  apply appends_bind.
  - unfold raise_for_status.
    apply appends_if; [apply appends_raise | apply appends_ret].
  - intros _. apply extract_loop_no_chat.
Qed.

Lemma serpapi_block_no_chat (req_params : list (pystr * pystr))
      (listing_of : serp_json -> option (option serp_listing))
      (with_date : bool) (cap : nat) (results : list result) :
  appends no_chat (serpapi_block w req_params listing_of with_date cap results).
Proof.
  unfold serpapi_block.
  apply appends_try_catch; [|intros; apply appends_ret].
  apply appends_bind; [now apply appends_http_get|]. intros response.
  apply appends_if; [|apply appends_ret].
  destruct (listing_of (json response)) as [[[|items]|]|];
    apply appends_ret || apply appends_raise.
Qed.

Lemma search_company_info_no_chat (self : summarizer) (company_name : pystr)
      (company_url : option pystr) :
  appends no_chat
          (_search_company_info lower w self company_name company_url).
Proof.
  unfold _search_company_info. cbv zeta.
  apply appends_bind.
  - destruct (serpapi_key self) as [key|]; [|apply appends_ret].
    apply appends_if; [|apply appends_ret].
    apply appends_bind; [apply serpapi_block_no_chat|].
    intros; apply serpapi_block_no_chat.
  - intros results. apply appends_if; [|apply appends_ret].
    apply appends_bind.
    + apply appends_try_catch; [|intros; apply appends_ret].
      apply appends_bind; [apply search_duckduckgo_html_no_chat|].
      intros; apply appends_ret.
    + intros results'.
      apply appends_try_catch; [|intros; apply appends_ret].
      apply appends_bind; [apply search_duckduckgo_html_no_chat|].
      intros; apply appends_ret.
Qed.

Lemma fetch_website_content_no_chat (url : pystr) :
  appends no_chat (_fetch_website_content w url).
Proof.
  unfold _fetch_website_content.
  apply appends_try_catch; [|intros; apply appends_ret].
  apply appends_bind; [now apply appends_http_get|]. intros response.
  apply appends_bind.
  - unfold raise_for_status.
    apply appends_if; [apply appends_raise | apply appends_ret].
  - intros _. apply appends_ret.
Qed.

Lemma gather_no_chat (self : summarizer) (company_name : pystr)
      (company_url : option pystr) {B}
      (k : list result -> option pystr -> M B) :
  (forall rs c, appends no_chat (k rs c)) ->
  appends no_chat
    (bind (_search_company_info lower w self company_name company_url)
          (fun search_results =>
             bind (match company_url with
                   | Some url =>
                     if nonempty url then _fetch_website_content w url
                     else ret None
                   | None => ret None
                   end)
                  (fun website_content => k search_results website_content))).
Proof.
  intros Hk.
  apply appends_bind; [apply search_company_info_no_chat|]. intros rs.
  apply appends_bind; [|intros c; apply Hk].
  destruct company_url as [url|]; [|apply appends_ret].
  apply appends_if; [apply fetch_website_content_no_chat | apply appends_ret].
Qed.

(** X12: a summarizer without a model client never calls the model:
    whatever the run does, returning or raising, every request it adds to
    the log is a GET or a HEAD. *)
Theorem no_client_no_model_request (self : summarizer) (company_name : pystr)
        (company_url : option pystr) :
  client self = false ->
  appends (fun r => is_chat r = false)
          (summarize_company lower w self company_name company_url).
Proof.
  intros Hc. unfold summarize_company. rewrite Hc.
  apply gather_no_chat. intros rs c.
  apply appends_bind; [|intros; apply appends_ret].
  apply appends_bind; [apply appends_lift|]. intros t.
  apply appends_bind; [apply appends_lift|]. intros v.
  apply appends_ret.
Qed.

End Requests.

Section ModelRun.

Variable lower : pystr -> pystr.
Variable w : world.

Lemma generate_overview_run (company_name : pystr) (rs : list result)
      (website_content : option pystr) (l : log) :
  exists text prompt,
    _generate_overview w company_name rs website_content l
    = (Returns text,
       l ++ [ChatCreate (u "gpt-4o-mini")
                        (u "당신은 회사 정보를 분석하고 요약하는 전문가입니다.")
                        prompt (u "0.7") 1000]).
Proof.
  unfold _generate_overview. cbv zeta.
  match goal with
  | |- context [ask_model w ?s ?p ?m ?n l] =>
    pose proof (ask_model_run w s p m n l) as Hrun; cbv zeta in Hrun
  end.
  rewrite Hrun. eauto.
Qed.

Lemma generate_talent_profile_run (company_name : pystr) (rs : list result)
      (website_content : option pystr) (l : log) :
  Forall textual rs ->
  exists text prompt,
    _generate_talent_profile lower w company_name rs website_content l
    = (Returns text,
       l ++ [ChatCreate (u "gpt-4o-mini")
                        (u "당신은 회사 인재상을 분석하는 전문가입니다.")
                        prompt (u "0.7") 800]).
Proof.
  intros H. unfold _generate_talent_profile, talent_results_generate.
  cbv zeta.
  rewrite (keyword_filter_textual lower talent_keywords_generate H).
  unfold bind at 1, lift.
  match goal with
  | |- context [ask_model w ?s ?p ?m ?n l] =>
    pose proof (ask_model_run w s p m n l) as Hrun; cbv zeta in Hrun
  end.
  rewrite Hrun. eauto.
Qed.

Lemma generate_recent_vision_run (company_name : pystr) (rs : list result)
      (l : log) :
  Forall textual rs ->
  exists text prompt,
    _generate_recent_vision lower w company_name rs l
    = (Returns text,
       l ++ [ChatCreate (u "gpt-4o-mini")
                        (u "당신은 회사 비전과 전략을 분석하는 전문가입니다.")
                        prompt (u "0.7") 1000]).
Proof.
  intros H. unfold _generate_recent_vision.
  destruct (recent_vision_context_returns lower company_name H)
    as [context ->].
  unfold bind at 1, lift. cbv zeta.
  match goal with
  | |- context [ask_model w ?s ?p ?m ?n l] =>
    pose proof (ask_model_run w s p m n l) as Hrun; cbv zeta in Hrun
  end.
  rewrite Hrun. eauto.
Qed.

(** X13: with a model client, and titles and snippets that are strings
    (always so without a search API key), a run ends with exactly three
    model requests, for the overview, the talent profile and the vision in
    this order, with output caps 1000, 800 and 1000 and temperature 0.7;
    each is sent whether or not the one before failed, and nothing before
    them is a model request. *)
Theorem model_run_three_requests (self : summarizer) (company_name : pystr)
        (company_url : option pystr) (l : log) :
  client self = true ->
  (opt_truthy (serpapi_key self) = false
   \/ forall rs l1,
       _search_company_info lower w self company_name company_url l
       = (Returns rs, l1) -> Forall textual rs) ->
  exists fields gathered p1 p2 p3,
    summarize_company lower w self company_name company_url l
    = (Returns fields,
       (l ++ gathered)
         ++ [ ChatCreate (u "gpt-4o-mini")
                         (u "당신은 회사 정보를 분석하고 요약하는 전문가입니다.")
                         p1 (u "0.7") 1000;
              ChatCreate (u "gpt-4o-mini")
                         (u "당신은 회사 인재상을 분석하는 전문가입니다.")
                         p2 (u "0.7") 800;
              ChatCreate (u "gpt-4o-mini")
                         (u "당신은 회사 비전과 전략을 분석하는 전문가입니다.")
                         p3 (u "0.7") 1000 ])
    /\ Forall (fun r => is_chat r = false) gathered.
Proof.
  intros Hc Hyp. unfold summarize_company. rewrite Hc.
  destruct (search_company_info_returns lower w self company_name
                                        company_url l)
    as (rs & l1 & Esearch & Hddg).
  assert (Htext : Forall textual rs).
  { destruct Hyp as [Hkey | Hall]; [auto | eauto]. }
  destruct (search_company_info_no_chat lower w self company_name
                                        company_url l)
    as (o1 & s1 & E1 & N1).
  rewrite Esearch in E1. injection E1 as _ ->.
  unfold bind at 1. rewrite Esearch.
  set (fetch := match company_url with
                | Some url => if nonempty url
                              then _fetch_website_content w url else ret None
                | None => ret None
                end).
  assert (Hfetch : exists c s2,
             fetch (l ++ s1) = (Returns c, (l ++ s1) ++ s2)
             /\ Forall (fun r => is_chat r = false) s2).
  { subst fetch. destruct company_url as [url|];
      [destruct (nonempty url)|].
    - destruct (fetch_website_content_bounded w url (l ++ s1))
        as (c & E & _).
      exists c, [website_get url]. split; [exact E|].
      now repeat constructor.
    - exists None, []. unfold ret. now rewrite app_nil_r.
    - exists None, []. unfold ret. now rewrite app_nil_r. }
  destruct Hfetch as (c & s2 & Efetch & N2).
  unfold bind at 1. rewrite Efetch.
  destruct (generate_overview_run company_name rs c ((l ++ s1) ++ s2))
    as (o & p1 & Eo).
  destruct (generate_talent_profile_run company_name c
              (((l ++ s1) ++ s2) ++ [ChatCreate (u "gpt-4o-mini")
                        (u "당신은 회사 정보를 분석하고 요약하는 전문가입니다.")
                        p1 (u "0.7") 1000]) Htext)
    as (t & p2 & Et).
  match type of Et with
  | _ = (_, ?l4) =>
    destruct (generate_recent_vision_run company_name l4 Htext)
      as (v & p3 & Ev)
  end.
  eexists. exists (s1 ++ s2), p1, p2, p3.
  split; [|now apply Forall_app].
  unfold bind, ret. rewrite Eo, Et, Ev.
  f_equal. rewrite <- !app_assoc. reflexivity.
Qed.

(** X14: when every GET request fails, a summarizer without keys returns
    the three fixed texts that say nothing was found, for every company
    name and URL. *)
Theorem no_network_gives_not_found_texts (self : summarizer)
        (company_name : pystr) (company_url : option pystr) (l : log) :
  client self = false -> opt_truthy (serpapi_key self) = false ->
  (forall l req, get_fails (requests_get w l req)) ->
  exists l',
    summarize_company lower w self company_name company_url l
    = (Returns
         [ (u "overview",
            Some ((u "=== " ++ company_name ++ u " 회사 개요 ===" ++ nl ++ nl)
                    ++ u "검색 결과를 찾을 수 없습니다. 회사 홈페이지 URL을 입력하시면 더 많은 정보를 얻을 수 있습니다."));
           (u "talent_profile",
            Some (((u "=== " ++ company_name ++ u " 인재상 ===" ++ nl ++ nl)
                     ++ u "인재상 관련 검색 결과를 찾을 수 없습니다." ++ nl ++ nl)
                    ++ nl ++ u "💡 팁: 회사 홈페이지의 채용 페이지나 인재상 페이지 URL을 입력하시면 더 정확한 정보를 얻을 수 있습니다."));
           (u "recent_vision",
            Some ((u "=== " ++ company_name ++ u " 최근 비전 및 전략 ===" ++ nl ++ nl)
                    ++ u "최근 비전/전략 관련 정보를 찾을 수 없습니다." ++ nl ++ nl)) ],
       l').
Proof.
  intros Hc Hkey Hnet. unfold summarize_company. rewrite Hc.
  destruct (free_scrape_concatenates lower w self company_name company_url l
                                     Hkey)
    as (general & l1 & news & l2 & E1 & E2 & Esearch & _).
  destruct (ddg_search_bounded lower w (general_query company_name) false l
                               (max_results := 5) ltac:(lia))
    as (g & s1 & E1' & _ & _ & Hg).
  rewrite E1 in E1'. injection E1' as <- ->.
  destruct (Hg (Hnet _ _)) as [-> _].
  destruct (ddg_search_bounded lower w (news_query company_name) true
                               (l ++ s1) (max_results := 3) ltac:(lia))
    as (n & s2 & E2' & _ & _ & Hn).
  rewrite E2 in E2'. injection E2' as <- ->.
  destruct (Hn (Hnet _ _)) as [-> _].
  unfold bind at 1. rewrite Esearch. cbn [app].
  assert (Hfetch : exists l3,
             match company_url with
             | Some url => if nonempty url
                           then _fetch_website_content w url else ret None
             | None => ret None
             end ((l ++ s1) ++ s2) = (Returns None, l3)).
  { destruct company_url as [url|]; [destruct (nonempty url)|];
      try (eexists; reflexivity).
    destruct (fetch_website_content_bounded w url ((l ++ s1) ++ s2))
      as (c & E & Hfail & _).
    rewrite (Hfail (Hnet _ _)) in E. eauto. }
  destruct Hfetch as (l3 & Efetch).
  unfold bind at 1. rewrite Efetch.
  exists l3. reflexivity.
Qed.


End ModelRun.

Section VisionText.

Variable lower : pystr -> pystr.

(** X16: on results whose title and snippet are strings, when some result
    is news the vision text without a model depends on the results only
    through the first five news results. *)
Theorem vision_text_uses_first_five_news (company_name : pystr)
        (rs : list result) :
  Forall textual rs ->
  forall is_news : result -> bool,
    (forall r, is_news r = true <-> news_like lower r) ->
    filter is_news rs <> [] ->
    exists text,
      _format_search_results_as_vision lower company_name rs = Returns text
      /\ _format_search_results_as_vision lower company_name
                                          (firstn 5 (filter is_news rs))
         = Returns text.
Proof.
  intros H is_news Hspec Hne.
  assert (Hext : forall r, dated_or_news lower r = is_news r).
  { intros r. pose proof (dated_or_news_spec lower r) as H1.
    pose proof (Hspec r) as H2.
    destruct (dated_or_news lower r), (is_news r); trivial;
      [symmetry; apply H2, H1 | apply H1, H2]; reflexivity. }
  rewrite <- (filter_ext _ _ Hext) in *.
  assert (H5 : Forall textual (firstn 5 (filter (dated_or_news lower) rs))).
  { now apply Forall_firstn, Forall_filter. }
  unfold _format_search_results_as_vision.
  rewrite (news_results_textual lower H), (news_results_textual lower H5).
  cbn [obind].
  rewrite (filter_fixed (dated_or_news lower)
             (Forall_firstn 5 (filter_satisfies _ rs))).
  rewrite nonempty_firstn, firstn_idem.
  destruct (filter (dated_or_news lower) rs); [contradiction|].
  cbn [nonempty]. eauto.
Qed.

End VisionText.

(* ================================================================= *)
(** ** The further statements at concrete inputs *)

(** X1 for a served page: script and navigation text is left out. *)
Lemma fetch_website_content_bounded_witness :
  requests_get (serving home_page) [] (website_get (u "https://a.example/"))
  = Returns {| status_code := 200; json := JsonError; soup := home_page |}
  /\ ~ (400 <= 200 < 600)%Z
  /\ _fetch_website_content (serving home_page) (u "https://a.example/") []
     = (Returns (Some (u "Acme")), [website_get (u "https://a.example/")]).
Proof.
  split; [reflexivity|]. split; [lia|].
  destruct (fetch_website_content_bounded (serving home_page)
                                          (u "https://a.example/") [])
    as (content & E & _ & H).
  destruct (H _ eq_refl ltac:(simpl; lia)) as (text & -> & -> & _).
  exact E.
Defined.

(** X3 for a page with a wrapped and a plain hit. *)
Lemma extract_requests_witness :
  (0 <= 5)%Z
  /\ exists rs,
      extract lower_ascii redirecting (page [wrapped_hit; plain_hit]) 5 false []
      = (Returns rs, [] ++ map head_request [u "/l/?uddg=x"]).
Proof.
  split; [lia|].
  destruct (extract_requests lower_ascii redirecting
              (page [wrapped_hit; plain_hit]) false []
              (max_results := 5) ltac:(lia))
    as (rs & E & _).
  exists rs. exact E.
Defined.

(** X4 without network. *)
Lemma ddg_search_bounded_witness :
  (0 <= 3)%Z
  /\ get_fails (requests_get offline [] ddg_get)
  /\ _search_duckduckgo_html lower_ascii offline (news_query (u "Acme")) 3 true []
     = (Returns [], [ddg_get]).
Proof.
  split; [lia|]. split; [exact I|].
  destruct (ddg_search_bounded lower_ascii offline (news_query (u "Acme"))
                               true [] (max_results := 3) ltac:(lia))
    as (rs & suffix & E & _ & _ & H).
  destruct (H I) as [-> [-> | ->]]; [|exact E].
  vm_compute in E. discriminate E.
Defined.

(** X5 for a served page with one hit. *)
Lemma free_scrape_concatenates_witness :
  opt_truthy (serpapi_key no_keys) = false
  /\ exists general news l2,
      _search_company_info lower_ascii (serving (page [plain_hit])) no_keys
                           (u "Acme") None []
      = (Returns (general ++ news), l2)
      /\ length general <= 5 /\ length news <= 3
      /\ Forall (dated_as false) general /\ Forall (dated_as true) news.
Proof.
  split; [reflexivity|].
  destruct (free_scrape_concatenates lower_ascii (serving (page [plain_hit]))
                                     no_keys (u "Acme") None [] eq_refl)
    as (general & l1 & news & l2 & _ & _ & E & H1 & H2 & H3 & H4).
  exists general, news, l2. repeat split; assumption.
Defined.


(** X11 for three results. *)
Lemma talent_text_uses_first_five_matches_witness :
  Forall textual [hiring_result; news_result; other_result]
  /\ exists keep : result -> bool,
      (forall r, keep r = true <-> has_keyword lower_ascii talent_keywords r)
      /\ exists text,
          _format_search_results_as_talent_profile
            lower_ascii (u "Acme") [hiring_result; news_result; other_result]
            None
          = Returns text
          /\ _format_search_results_as_talent_profile
               lower_ascii (u "Acme")
               (firstn 5 (filter keep
                                 [hiring_result; news_result; other_result]))
               None
             = Returns text.
Proof.
  split; [exact textual_examples|].
  apply (talent_text_uses_first_five_matches lower_ascii (u "Acme") None
                                             textual_examples).
Defined.

(** X12 without keys and without network. *)
Lemma no_client_no_model_request_witness :
  client no_keys = false
  /\ appends (fun r => is_chat r = false)
             (summarize_company lower_ascii offline no_keys (u "Acme")
                                (Some (u "https://a.example/"))).
Proof.
  split; [reflexivity|].
  apply (no_client_no_model_request lower_ascii offline no_keys (u "Acme")
                                    (Some (u "https://a.example/")) eq_refl).
Defined.

(** X13 for a served page and a model that answers. *)
Lemma model_run_three_requests_witness :
  client with_model = true
  /\ opt_truthy (serpapi_key with_model) = false
  /\ exists fields gathered p1 p2 p3,
      summarize_company lower_ascii (serving (page [plain_hit])) with_model
                        (u "Acme") None []
      = (Returns fields,
         ([] ++ gathered)
           ++ [ ChatCreate (u "gpt-4o-mini")
                           (u "당신은 회사 정보를 분석하고 요약하는 전문가입니다.")
                           p1 (u "0.7") 1000;
                ChatCreate (u "gpt-4o-mini")
                           (u "당신은 회사 인재상을 분석하는 전문가입니다.")
                           p2 (u "0.7") 800;
                ChatCreate (u "gpt-4o-mini")
                           (u "당신은 회사 비전과 전략을 분석하는 전문가입니다.")
                           p3 (u "0.7") 1000 ])
      /\ Forall (fun r => is_chat r = false) gathered.
Proof.
  split; [reflexivity|]. split; [reflexivity|].
  apply (model_run_three_requests lower_ascii (serving (page [plain_hit]))
                                  with_model (u "Acme") None [] eq_refl).
  left. reflexivity.
Defined.

(** X14 without network. *)
Lemma no_network_gives_not_found_texts_witness :
  client no_keys = false
  /\ opt_truthy (serpapi_key no_keys) = false
  /\ (forall l req, get_fails (requests_get offline l req))
  /\ exists overview_text l',
      summarize_company lower_ascii offline no_keys (u "Acme") None []
      = (Returns
           [ (u "overview", Some overview_text);
             (u "talent_profile",
              Some (((u "=== " ++ u "Acme" ++ u " 인재상 ===" ++ nl ++ nl)
                       ++ u "인재상 관련 검색 결과를 찾을 수 없습니다." ++ nl ++ nl)
                      ++ nl ++ u "💡 팁: 회사 홈페이지의 채용 페이지나 인재상 페이지 URL을 입력하시면 더 정확한 정보를 얻을 수 있습니다."));
             (u "recent_vision",
              Some ((u "=== " ++ u "Acme" ++ u " 최근 비전 및 전략 ===" ++ nl ++ nl)
                      ++ u "최근 비전/전략 관련 정보를 찾을 수 없습니다." ++ nl ++ nl)) ],
         l').
Proof.
  assert (H : forall l req, get_fails (requests_get offline l req)).
  { intros l req. exact I. }
  split; [reflexivity|]. split; [reflexivity|]. split; [exact H|].
  destruct (no_network_gives_not_found_texts lower_ascii offline no_keys
                                             (u "Acme") None [] eq_refl eq_refl
                                             H)
    as (l' & E).
  eexists. exists l'. exact E.
Defined.

Lemma news_like_decided :
  forall r, dated_or_news lower_ascii r = true <-> news_like lower_ascii r.
Proof. intros r. apply dated_or_news_spec. Qed.

(** X16 for three results, one of them news. *)
Lemma vision_text_uses_first_five_news_witness :
  Forall textual [hiring_result; news_result; other_result]
  /\ filter (dated_or_news lower_ascii)
            [hiring_result; news_result; other_result] <> []
  /\ exists text,
      _format_search_results_as_vision
        lower_ascii (u "Acme") [hiring_result; news_result; other_result]
      = Returns text
      /\ _format_search_results_as_vision
           lower_ascii (u "Acme")
           (firstn 5 (filter (dated_or_news lower_ascii)
                             [hiring_result; news_result; other_result]))
         = Returns text.
Proof.
  assert (Hne : filter (dated_or_news lower_ascii)
                       [hiring_result; news_result; other_result] <> []).
  { vm_compute. discriminate. }
  split; [exact textual_examples|]. split; [exact Hne|].
  apply (@vision_text_uses_first_five_news lower_ascii (u "Acme") _
           textual_examples (dated_or_news lower_ascii) news_like_decided Hne).
Defined.

(** X6 for an object with a title only. *)
Lemma append_items_keeps_prefix_witness :
  (forall v, ~ In (u "snippet", v) [(u "title", VStr (u "Acme"))])
  /\ snippet (result_of_fields false [(u "title", VStr (u "Acme"))]) = VStr [].
Proof.
  assert (H : forall v, ~ In (u "snippet", v) [(u "title", VStr (u "Acme"))]).
  { intros v [E|[]]. vm_compute in E. discriminate E. }
  split; [exact H|].
  apply (proj1 (proj2 (proj2 (proj2 (append_items_keeps_prefix
                                       false [] [] []))
                             [(u "title", VStr (u "Acme"))]))).
  exact H.
Defined.
